(** * Rah-e-Ayandeh: token lifecycle and request authentication

    A shallow embedding of [utils/auth.js] (token service and request
    guards), the error classes of [utils/errorHandler.js], the profile
    projection of [models/User.js] and the [GET /auth/profile] handler of
    [routes/auth.js].

    The two packages the code calls into, [jsonwebtoken] and [redis], are
    dependencies and not part of the repository.  [jsonwebtoken] is an
    interface with laws ([JwtLib]).  [redis] is the client of version 4
    that package.json declares ([redis ^4.7.0], created with
    [legacyMode: false]): a key-value state with per-key expiry and a
    failure mode, whose commands answer through the promise they return
    and take no callback.  Time is the wall clock in milliseconds
    ([Date.now()]), passed explicitly.  Calls to the logger never change
    control flow and are left out. *)

From Stdlib Require Import ZArith String Ascii List DecimalString DecimalZ.
From stdpp Require Import gmap strings.

Open Scope string_scope.
Open Scope Z_scope.

(** ** JavaScript conventions the code relies on *)

Module Js.

(** Outcome of a call: a returned value or a thrown exception. *)
Inductive result (E A : Type) : Type :=
| Return (a : A)
| Throw (e : E).
Arguments Return {E A} a.
Arguments Throw {E A} e.

(** What becomes of the promise an async function returns: it settles,
    the way the function's body ended, or it stays pending for ever. *)
Inductive promise (E A : Type) : Type :=
| Settled (r : result E A)
| Pending.
Arguments Settled {E A} r.
Arguments Pending {E A}.

(** Truthiness of a string: only the empty string is falsy. *)
Definition truthy (s : string) : bool :=
  match s with EmptyString => false | String _ _ => true end.

(** [process.env.X || fallback]: an unset or empty variable falls back. *)
Definition or_default (v : option string) (fallback : string) : string :=
  match v with
  | Some s => if truthy s then s else fallback
  | None => fallback
  end.

(** Template interpolation [`${v}`] of a value that is a string or
    [undefined]. *)
Definition interpolate (v : option string) : string :=
  match v with Some s => s | None => "undefined" end.

(** [s.split(sep)] for a one-character separator: the list of the
    pieces between occurrences of [sep]; never empty. *)
Fixpoint split (sep : ascii) (s : string) : list string :=
  match s with
  | EmptyString => [EmptyString]
  | String c rest =>
      if Ascii.eqb c sep then EmptyString :: split sep rest
      else match split sep rest with
           | piece :: pieces => String c piece :: pieces
           | [] => [String c EmptyString]
           end
  end.

(** Does the character occur in the string? *)
Fixpoint has_char (c : ascii) (s : string) : bool :=
  match s with
  | EmptyString => false
  | String d rest => Ascii.eqb d c || has_char c rest
  end.

(** [roles.includes(x)] on an array of strings. *)
Definition includes (xs : list string) (x : option string) : bool :=
  match x with
  | Some s => existsb (String.eqb s) xs
  | None => false
  end.

End Js.
Export Js.

(** ** utils/errorHandler.js: the error classes *)

Module Errors.

Inductive error_class :=
| BadRequestError | UnauthorizedError | ForbiddenError | NotFoundError
| ValidationError | RateLimitError | InternalServerError.

(** The status code each subclass passes to [AppError]. *)
Definition status_of (c : error_class) : Z :=
  match c with
  | BadRequestError => 400
  | UnauthorizedError => 401
  | ForbiddenError => 403
  | NotFoundError => 404
  | ValidationError => 422
  | RateLimitError => 429
  | InternalServerError => 500
  end.

Record AppError := {
  cls : error_class;
  message : string;
  statusCode : Z;
  errorEn : string
}.

(** [new C(message, errorEn)]. *)
Definition new (c : error_class) (msg en : string) : AppError :=
  {| cls := c; message := msg; statusCode := status_of c;
     errorEn := if truthy en then en else msg |}.

(** What can be thrown: an [AppError], or an error object raised inside
    a dependency (its [name] and [message]). *)
Inductive exn :=
| App (e : AppError)
| Lib (name msg : string).

End Errors.
Export Errors.

Definition outcome : Type -> Type := result exn.
Definition async : Type -> Type := promise exn.

(** ** The jsonwebtoken dependency *)

Module Jwt.

(** The decoded payload: the application's own claims (an object with
    string values) and the registered claims the package adds. *)
Record claims := {
  body : gmap string string;
  iat : Z;
  exp : option Z
}.

(** HS256 compact serialisation and its check, and the [ms] time-span
    parser behind [expiresIn]. *)
Class JwtLib := {
  jws_sign : claims -> string -> string;
  jws_verify : string -> string -> option claims;
  ms : string -> option Z;
  jws_verify_sign : forall c key, jws_verify (jws_sign c key) key = Some c;
  jws_verify_empty : forall key, jws_verify "" key = None;
  jws_verify_no_space :
    forall t key c, jws_verify t key = Some c -> has_char " " t = false;
  ms_15m : ms "15m" = Some 900000;
  ms_7d : ms "7d" = Some 604800000
}.

Section Api.
Context `{JwtLib}.

(** [jwt.sign(payload, secret, { expiresIn })] at clock [now]. *)
Definition sign (payload : gmap string string) (secret expiresIn : string)
    (now : Z) : outcome string :=
  match ms expiresIn with
  | None =>
      Throw (Lib "Error"
        "expiresIn should be a number of seconds or string representing a timespan")
  | Some span =>
      let timestamp := now / 1000 in
      Return (jws_sign {| body := payload; iat := timestamp;
                          exp := Some (timestamp + span / 1000) |} secret)
  end.

(** [jwt.verify(token, secret)] at clock [now]. *)
Definition verify (token secret : string) (now : Z) : outcome claims :=
  match jws_verify token secret with
  | None => Throw (Lib "JsonWebTokenError" "invalid token")
  | Some c =>
      match exp c with
      | Some e =>
          if now / 1000 >=? e then Throw (Lib "TokenExpiredError" "jwt expired")
          else Return c
      | None => Return c
      end
  end.
End Api.

End Jwt.
Export Jwt.

(** ** The redis dependency: the client the token service talks to *)

Module Redis.

(** A stored string and the instant (ms) at which it expires, if any. *)
Record entry := { value : string; expireAt : option Z }.

(** The client with the server behind it: the error with which every
    command is rejected while the server cannot be reached; the keys;
    the commands the client was given, oldest first, each as the list of
    arguments it makes of the call; and the errors of rejected promises
    that no code handled.  What the runtime does about those (Node, from
    version 15 on, ends the process unless a handler is installed, and
    server.js installs none) is outside this model. *)
Record client := {
  failure : option string;
  data : gmap string entry;
  commands : list (list string);
  unhandled : list exn
}.

Definition live (now : Z) (e : entry) : bool :=
  match expireAt e with
  | Some t => now <? t
  | None => true
  end.

(** The client after it was given one more command. *)
Definition given (args : list string) (r : client) : client :=
  {| failure := failure r; data := data r;
     commands := commands r ++ [args]; unhandled := unhandled r |}.

(** The client after the server changed its keys. *)
Definition stored (d : gmap string entry) (r : client) : client :=
  {| failure := failure r; data := d;
     commands := commands r; unhandled := unhandled r |}.

(** A value passed to a command where its options are expected. *)
Inductive argument :=
| Str (s : string)
| Num (n : Z)
| SetOptions (EX : option Z).

(** [options?.EX]: an options object may have one; a string or a number
    has none. *)
Definition EX_of (options : option argument) : option Z :=
  match options with
  | Some (SetOptions ex) => ex
  | _ => None
  end.

Definition decimal (n : Z) : string := NilZero.string_of_int (Z.to_int n).

(** Each command reads its own parameters and nothing after them, and
    answers through the promise it returns: the functions below give
    how that promise settles, and the client afterwards. *)

(** [client.get(key)]: the value, or [null] for a missing or expired
    key. *)
Definition get (key : string) (now : Z) (r : client)
    : outcome (option string) * client :=
  let r := given ["GET"; key] r in
  match failure r with
  | Some err => (Throw (Lib "Error" err), r)
  | None =>
      (Return (match data r !! key with
               | Some e => if live now e then Some (value e) else None
               | None => None
               end), r)
  end.

(** [client.set(key, value, options)]: [rest] is what the call passes
    after [value]; its first element is taken for the options, and the
    key expires only if those have an [EX]. *)
Definition set (key val : string) (rest : list argument) (now : Z) (r : client)
    : outcome unit * client :=
  let EX := EX_of (head rest) in
  let r := given (["SET"; key; val]
                  ++ match EX with
                     | Some seconds => ["EX"; decimal seconds]
                     | None => []
                     end) r in
  match failure r with
  | Some err => (Throw (Lib "Error" err), r)
  | None =>
      (Return tt,
       stored (<[key := {| value := val;
                           expireAt := (fun seconds => now + seconds * 1000) <$> EX |}]>
                 (data r)) r)
  end.

(** [client.del(key)]. *)
Definition del (key : string) (r : client) : outcome unit * client :=
  let r := given ["DEL"; key] r in
  match failure r with
  | Some err => (Throw (Lib "Error" err), r)
  | None => (Return tt, stored (delete key (data r)) r)
  end.

End Redis.

(** ** models/User.js *)

Module User.

(** Values that end up in a JSON response. *)
#[local] Set Warnings "-register-all".
Inductive json :=
| JUndefined
| JBool (b : bool)
| JString (s : string)
| JDate (millis : Z)
| JArray (items : list json)
| JObject (fields : list (string * json)).

(** A user document.  [favorites] and [applications] are sub-documents
    that the code only passes along. *)
Record user := {
  _id : string;
  username : string;
  email : string;
  password : string;
  firstName : option string;
  lastName : option string;
  role : string;
  favorites : json;
  applications : json;
  createdAt : Z;
  lastLogin : option Z
}.

Definition opt_string (v : option string) : json :=
  match v with Some s => JString s | None => JUndefined end.

Definition opt_date (v : option Z) : json :=
  match v with Some d => JDate d | None => JUndefined end.

(** [userSchema.methods.getProfile]. *)
Definition getProfile (this : user) : list (string * json) :=
  [ ("id", JString (_id this));
    ("username", JString (username this));
    ("email", JString (email this));
    ("firstName", opt_string (firstName this));
    ("lastName", opt_string (lastName this));
    ("role", JString (role this));
    ("favorites", favorites this);
    ("applications", applications this);
    ("createdAt", JDate (createdAt this)) ].

(** Property lookup on an object literal. *)
Fixpoint field (k : string) (o : list (string * json)) : option json :=
  match o with
  | [] => None
  | (k', v) :: rest => if String.eqb k k' then Some v else field k rest
  end.

End User.
Export User.

(** ** utils/auth.js *)

Module Auth.

(** [process.env]: the variables the token service reads. *)
Record env := {
  JWT_SECRET : option string;
  JWT_EXPIRES_IN : option string;
  JWT_REFRESH_SECRET : option string;
  JWT_REFRESH_EXPIRES_IN : option string
}.

(** The part of an Express request the guards read and write:
    [req.headers.authorization] and [req.user]. *)
Record request := {
  authorization : option string;
  req_user : option claims
}.

(** How a middleware ends: it calls [next()], calls [next(err)], or
    throws. *)
Inductive middleware :=
| Next (req : request)
| NextError (e : exn)
| Thrown (e : exn).

(** [util.promisify(command).bind(redisClient)] at a call: the wrapper
    hands the command its arguments and, after them, a callback, and
    settles when the callback is called.  The commands of this client
    read nothing after their own parameters, so the callback is never
    called and the wrapper's promise never settles.  The promise the
    command itself returns ([call], with the client afterwards) is
    dropped: when it is rejected, nothing handles the rejection. *)
Definition promisified {A : Type} (call : outcome A * Redis.client)
    : async A * Redis.client :=
  match call with
  | (Return _, redis) => (Pending, redis)
  | (Throw e, redis) =>
      (Pending,
       {| Redis.failure := Redis.failure redis; Redis.data := Redis.data redis;
          Redis.commands := Redis.commands redis;
          Redis.unhandled := Redis.unhandled redis ++ [e] |})
  end.

(** The promisified commands of the module-level client. *)
Definition redisGet (key : string) (now : Z) (redis : Redis.client)
    : async (option string) * Redis.client :=
  promisified (Redis.get key now redis).

Definition redisSet (key val : string) (rest : list Redis.argument) (now : Z)
    (redis : Redis.client) : async unit * Redis.client :=
  promisified (Redis.set key val rest now redis).

Definition redisDel (key : string) (redis : Redis.client)
    : async unit * Redis.client :=
  promisified (Redis.del key redis).

(** [`refresh_token:${id}`]. *)
Definition tokenKey (id : string) : string := "refresh_token:" +:+ id.

Section Service.
Context `{JwtLib}.
Variable process_env : env.

Definition access_secret : string :=
  or_default (JWT_SECRET process_env) "jwt_fallback_secret".

Definition refresh_secret : string :=
  or_default (JWT_REFRESH_SECRET process_env) "jwt_refresh_fallback_secret".

Definition generateAccessToken (u : user) (now : Z) : outcome string :=
  let payload : gmap string string :=
    <["id" := _id u]> (<["username" := username u]>
      (<["email" := email u]> (<["role" := role u]> ∅))) in
  Jwt.sign payload access_secret
    (or_default (JWT_EXPIRES_IN process_env) "15m") now.

Definition generateRefreshToken (u : user) (now : Z) (redis : Redis.client)
    : async string * Redis.client :=
  let payload : gmap string string :=
    <["id" := _id u]> (<["type" := "refresh"]> ∅) in
  match Jwt.sign payload refresh_secret
          (or_default (JWT_REFRESH_EXPIRES_IN process_env) "7d") now with
  | Throw e => (Settled (Throw e), redis)
  | Return refreshToken =>
      match redisSet (tokenKey (_id u)) refreshToken
              [Redis.Str "EX"; Redis.Num (60 * 60 * 24 * 7)] now redis with
      | (Settled (Throw e), redis') => (Settled (Throw e), redis')
      | (Settled (Return _), redis') => (Settled (Return refreshToken), redis')
      | (Pending, redis') => (Pending, redis')
      end
  end.

Definition verifyAccessToken (token : string) (now : Z) : outcome claims :=
  match Jwt.verify token access_secret now with
  | Return decoded => Return decoded
  | Throw _ =>
      Throw (App (new UnauthorizedError
        "توکن نامعتبر است. لطفا مجددا وارد شوید"
        "Invalid token. Please login again"))
  end.

(** The body of the [try] block of [verifyRefreshToken]. *)
Definition verifyRefreshToken_try (token : string) (now : Z)
    (redis : Redis.client) : async claims * Redis.client :=
  match Jwt.verify token refresh_secret now with
  | Throw e => (Settled (Throw e), redis)
  | Return decoded =>
      match redisGet (tokenKey (interpolate (body decoded !! "id"))) now redis with
      | (Pending, redis') => (Pending, redis')
      | (Settled (Throw e), redis') => (Settled (Throw e), redis')
      | (Settled (Return storedToken), redis') =>
          let missing :=
            match storedToken with
            | None => true
            | Some stored => negb (truthy stored) || negb (String.eqb stored token)
            end in
          if missing then
            (Settled (Throw (App (new UnauthorizedError
               "توکن نامعتبر است. لطفا مجددا وارد شوید"
               "Invalid token. Please login again"))), redis')
          else (Settled (Return decoded), redis')
      end
  end.

Definition verifyRefreshToken (token : string) (now : Z)
    (redis : Redis.client) : async claims * Redis.client :=
  match verifyRefreshToken_try token now redis with
  | (Pending, redis') => (Pending, redis')
  | (Settled (Return decoded), redis') => (Settled (Return decoded), redis')
  | (Settled (Throw _), redis') =>
      (Settled (Throw (App (new UnauthorizedError
         "توکن منقضی شده است. لطفا مجددا وارد شوید"
         "Token expired. Please login again"))), redis')
  end.

Definition invalidateRefreshToken (userId : string) (redis : Redis.client)
    : async unit * Redis.client :=
  match redisDel (tokenKey userId) redis with
  | (Pending, redis') => (Pending, redis')
  | (Settled (Throw e), redis') => (Settled (Throw e), redis')
  | (Settled (Return _), redis') => (Settled (Return tt), redis')
  end.

Definition authenticateToken (req : request) (now : Z) : middleware :=
  let token : option string :=
    match authorization req with
    | None => None
    | Some authHeader =>
        if truthy authHeader then split " " authHeader !! 1%nat
        else Some authHeader
    end in
  match token with
  | Some (String _ _ as token) =>
      match verifyAccessToken token now with
      | Return decoded =>
          Next {| authorization := authorization req; req_user := Some decoded |}
      | Throw error => NextError error
      end
  | _ =>
      Thrown (App (new UnauthorizedError
        "توکن دسترسی الزامی است"
        "Access token is required"))
  end.

End Service.

Definition authorizeRoles (roles : list string) (req : request) : middleware :=
  match req_user req with
  | None =>
      Thrown (App (new UnauthorizedError
        "لطفا ابتدا وارد شوید"
        "Please login first"))
  | Some u =>
      if includes roles (body u !! "role") then Next req
      else
        Thrown (App (new UnauthorizedError
          "شما مجوز دسترسی به این بخش را ندارید"
          "You do not have permission to access this resource"))
  end.

End Auth.
Export Auth.

(** ** routes/auth.js: GET /profile *)

Module Routes.

(** The handler behind [auth.authenticateToken] on [GET /profile]:
    [users] is the collection [User.findById] reads, keyed by [_id]. *)
Definition profile (users : gmap string user) (req : request)
    : outcome (list (string * json)) :=
  match req_user req with
  | None => Throw (Lib "TypeError" "Cannot read properties of undefined")
  | Some decoded =>
  match body decoded !! "id" ≫= (users !!.) with
  | None => Throw (App (new NotFoundError "کاربر یافت نشد" "User not found"))
  | Some u =>
      Return
        [ ("success", JBool true);
          ("user", JObject
             [ ("id", JString (_id u));
               ("username", JString (username u));
               ("email", JString (email u));
               ("firstName", JString (or_default (firstName u) ""));
               ("lastName", JString (or_default (lastName u) ""));
               ("role", JString (role u));
               ("createdAt", JDate (createdAt u));
               ("lastLogin", opt_date (lastLogin u)) ]) ]
  end
  end.

End Routes.

(** ** A reference implementation of the [JwtLib] interface

    Tokens are three segments joined by dots: a fixed header, the claims
    as text, and a tag computed from the key and the first two segments.
    Segments use base 16 where the package uses base64url, and the tag is
    a stand-in for HMAC-SHA256 without collisions (and without secrecy,
    which nothing here is about); the interface laws need no more than
    that checking recomputes the tag. *)

Module RefJwt.

Definition hex_digit (n : N) : ascii :=
  match n with
  | 0 => "0" | 1 => "1" | 2 => "2" | 3 => "3" | 4 => "4" | 5 => "5"
  | 6 => "6" | 7 => "7" | 8 => "8" | 9 => "9" | 10 => "a" | 11 => "b"
  | 12 => "c" | 13 => "d" | 14 => "e" | _ => "f"
  end%N%char.

Definition hex_value (c : ascii) : option N :=
  let n := N_of_ascii c in
  if ((48 <=? n) && (n <=? 57))%N then Some (n - 48)%N
  else if ((97 <=? n) && (n <=? 102))%N then Some (n - 87)%N
  else None.

Definition is_hex (c : ascii) : bool :=
  match hex_value c with Some _ => true | None => false end.

Fixpoint hexs (s : string) : string :=
  match s with
  | EmptyString => EmptyString
  | String c rest =>
      let n := N_of_ascii c in
      String (hex_digit (n / 16)) (String (hex_digit (n mod 16)) (hexs rest))
  end.

Fixpoint unhex (s : string) : option string :=
  match s with
  | EmptyString => Some EmptyString
  | String _ EmptyString => None
  | String hi (String lo rest) =>
      match hex_value hi, hex_value lo, unhex rest with
      | Some h, Some l, Some r => Some (String (ascii_of_N (16 * h + l)) r)
      | _, _, _ => None
      end
  end.

Definition enc_num (z : Z) : string := hexs (NilEmpty.string_of_int (Z.to_int z)).

Definition dec_num (s : string) : option Z :=
  match unhex s with
  | Some d => option_map Z.of_int (NilEmpty.int_of_string d)
  | None => None
  end.

Definition enc_entry (kv : string * string) : string :=
  hexs kv.1 +:+ "-" +:+ hexs kv.2.

Fixpoint enc_body (l : list (string * string)) : string :=
  match l with
  | [] => ""
  | kv :: rest => enc_entry kv +:+ "_" +:+ enc_body rest
  end.

Definition dec_entry (s : string) : option (string * string) :=
  match split "-" s with
  | [k; v] =>
      match unhex k, unhex v with
      | Some k', Some v' => Some (k', v')
      | _, _ => None
      end
  | _ => None
  end.

Fixpoint dec_items (l : list string) : option (list (string * string)) :=
  match l with
  | [] => None
  | [last] => if String.eqb last "" then Some [] else None
  | item :: rest =>
      match dec_entry item, dec_items rest with
      | Some kv, Some kvs => Some (kv :: kvs)
      | _, _ => None
      end
  end.

Definition enc_exp (e : option Z) : string :=
  match e with
  | None => "N"
  | Some z => "S" +:+ enc_num z
  end.

Definition dec_exp (s : string) : option (option Z) :=
  match s with
  | String "N" EmptyString => Some None
  | String "S" num => option_map Some (dec_num num)
  | _ => None
  end.

Definition enc_claims (c : claims) : string :=
  enc_body (map_to_list (body c)) +:+ "I" +:+ enc_num (iat c)
    +:+ "E" +:+ enc_exp (exp c).

Definition dec_claims (s : string) : option claims :=
  match split "I" s with
  | [b; rest] =>
      match split "E" rest with
      | [i; e] =>
          match dec_items (split "_" b), dec_num i, dec_exp e with
          | Some kvs, Some i', Some e' =>
              Some {| body := list_to_map kvs; iat := i'; exp := e' |}
          | _, _, _ => None
          end
      | _ => None
      end
  | _ => None
  end.

Definition header : string := "J".

Definition tag (key signing_input : string) : string :=
  hexs (key +:+ signing_input).

Definition ref_sign (c : claims) (key : string) : string :=
  let signing_input := header +:+ "." +:+ enc_claims c in
  signing_input +:+ "." +:+ tag key signing_input.

Definition ref_verify (t key : string) : option claims :=
  if has_char " " t then None
  else
    match split "." t with
    | [h; p; sig] =>
        if String.eqb h header && String.eqb sig (tag key (h +:+ "." +:+ p))
        then dec_claims p
        else None
    | _ => None
    end.

Definition digit_value (c : ascii) : option Z :=
  let n := N_of_ascii c in
  if ((48 <=? n) && (n <=? 57))%N then Some (Z.of_N n - 48) else None.

Definition unit_ms (u : string) : option Z :=
  if String.eqb u "" then Some 1
  else if String.eqb u "ms" then Some 1
  else if String.eqb u "s" then Some 1000
  else if String.eqb u "m" then Some 60000
  else if String.eqb u "h" then Some 3600000
  else if String.eqb u "d" then Some 86400000
  else None.

Fixpoint ms_from (acc : Z) (s : string) : option Z :=
  match s with
  | EmptyString => Some acc
  | String c rest =>
      match digit_value c with
      | Some d => ms_from (10 * acc + d) rest
      | None => option_map (Z.mul acc) (unit_ms s)
      end
  end.

(** A number followed by a unit, in milliseconds. *)
Definition ref_ms (s : string) : option Z :=
  match s with
  | EmptyString => None
  | String c _ =>
      match digit_value c with
      | Some _ => ms_from 0 s
      | None => None
      end
  end.

(** Characters that never occur in the text of an entry list. *)
Definition off_body (c : ascii) : Prop :=
  is_hex c = false /\ Ascii.eqb "-" c = false /\ Ascii.eqb "_" c = false.

End RefJwt.

(** * Vocabulary of the claims *)

(** ** The errors the token service raises, by name *)

Definition invalid_token : exn :=
  App (new UnauthorizedError
    "توکن نامعتبر است. لطفا مجددا وارد شوید" "Invalid token. Please login again").

Definition token_expired : exn :=
  App (new UnauthorizedError
    "توکن منقضی شده است. لطفا مجددا وارد شوید" "Token expired. Please login again").

Definition token_required : exn :=
  App (new UnauthorizedError "توکن دسترسی الزامی است" "Access token is required").

Definition login_first : exn :=
  App (new UnauthorizedError "لطفا ابتدا وارد شوید" "Please login first").

Definition no_permission : exn :=
  App (new UnauthorizedError
    "شما مجوز دسترسی به این بخش را ندارید"
    "You do not have permission to access this resource").

(** An authentication-class error: an [UnauthorizedError], status 401. *)
Definition authentication_error (e : exn) : Prop :=
  exists a, e = App a /\ cls a = UnauthorizedError /\ statusCode a = 401.

(** ** Conditions on a refresh token *)

Section Conditions.
Context `{JwtLib}.

(** (a) The signature checks out under [secret] and yields [decoded],
    whose expiry, if it has one, lies after the clock second of [now]. *)
Definition signed_and_fresh (token secret : string) (now : Z) (decoded : claims)
    : Prop :=
  jws_verify token secret = Some decoded /\
  forall e, exp decoded = Some e -> now / 1000 < e.

(** (b) The store answers, and holds under [key] a live entry whose
    value is [token]. *)
Definition store_holds (redis : Redis.client) (key : string) (now : Z)
    (token : string) : Prop :=
  Redis.failure redis = None /\
  exists en, Redis.data redis !! key = Some en /\
             Redis.live now en = true /\ Redis.value en = token.
End Conditions.

(** ** The credential a request presents *)

(** The second piece of the [Authorization] header when split at single
    spaces, if there is one and it is not empty. *)
Definition presented (header : option string) : option string :=
  match header with
  | Some h =>
      match split " " h !! 1%nat with
      | Some token => if truthy token then Some token else None
      | None => None
      end
  | None => None
  end.

(** ** Users that differ in the stored secret only *)

Definition with_password (u : user) (pw : string) : user :=
  {| _id := _id u; username := username u; email := email u; password := pw;
     firstName := firstName u; lastName := lastName u; role := role u;
     favorites := favorites u; applications := applications u;
     createdAt := createdAt u; lastLogin := lastLogin u |}.

(** Two collections that agree on everything but the password hashes. *)
Definition same_but_passwords (users1 users2 : gmap string user) : Prop :=
  forall id, (fun u => with_password u "") <$> users1 !! id
             = (fun u => with_password u "") <$> users2 !! id.

(** ** What the token service issues *)

Section Issued.
Context `{JwtLib}.
Variable process_env : env.

(** The claims [generateRefreshToken] signs at clock [now] when the
    configured lifetime is [span] milliseconds. *)
Definition refresh_claims (u : user) (now span : Z) : claims :=
  {| body := <["id" := _id u]> (<["type" := "refresh"]> ∅);
     iat := now / 1000;
     exp := Some (now / 1000 + span / 1000) |}.

Definition refresh_lifetime : option Z :=
  ms (or_default (JWT_REFRESH_EXPIRES_IN process_env) "7d").

Definition refresh_token (u : user) (now span : Z) : string :=
  jws_sign (refresh_claims u now span) (refresh_secret process_env).

(** The entry [generateRefreshToken] leaves in the store: it has no
    expiry. *)
Definition refresh_entry (token : string) : Redis.entry :=
  {| Redis.value := token; Redis.expireAt := None |}.

End Issued.

(** ** Concrete inputs *)

Definition env0 : env :=
  {| JWT_SECRET := None; JWT_EXPIRES_IN := None;
     JWT_REFRESH_SECRET := None; JWT_REFRESH_EXPIRES_IN := None |}.

Definition alice : user :=
  {| _id := "65f1c0ffee"; username := "alice"; email := "a@x.com";
     password := "$2b$10$N9qo8uLOickgx2ZMRZoMye"; firstName := None;
     lastName := None; role := "user";
     favorites := JObject [("universities", JArray []); ("jobs", JArray [])];
     applications := JArray []; createdAt := 0; lastLogin := None |}.

(** A request that passed [authenticateToken] with a token of [alice]. *)
Definition alice_request : request :=
  {| authorization := Some "Bearer t";
     req_user := Some {| body := <["id" := "65f1c0ffee"]> (<["username" := "alice"]>
                           (<["email" := "a@x.com"]> (<["role" := "user"]> ∅)));
                         iat := 1; exp := Some 901 |} |}.

Definition redis0 : Redis.client :=
  {| Redis.failure := None; Redis.data := ∅;
     Redis.commands := []; Redis.unhandled := [] |}.

(** A store that holds, for [alice], the refresh token signed for her
    at 1000 ms under [env0], with seven days to live. *)
Definition redis_alice `{JwtLib} : Redis.client :=
  {| Redis.failure := None;
     Redis.data := {[ "refresh_token:65f1c0ffee" :=
                        {| Redis.value := refresh_token env0 alice 1000 604800000;
                           Redis.expireAt := Some 604801000 |} ]};
     Redis.commands := []; Redis.unhandled := [] |}.

(** The same store when it cannot be reached. *)
Definition redis_down `{JwtLib} : Redis.client :=
  {| Redis.failure := Some "connect ECONNREFUSED 127.0.0.1:6379";
     Redis.data := Redis.data redis_alice;
     Redis.commands := []; Redis.unhandled := [] |}.

(** * Further code of the repository *)

(** ** utils/errorHandler.js: the error middleware *)

Module ErrorHandler.

(** An error object as [errorHandlerMiddleware] reads it: [err.name],
    [err.message], [err.stack], and the optional [err.statusCode],
    [err.errorEn], [err.validationErrors] (field and message of each
    entry), [err.errors] (path and message of each value, Mongoose),
    [err.code] (when it is a number) and the keys of [err.keyValue]. *)
Record error_object := {
  err_name : string;
  err_message : string;
  err_stack : string;
  err_statusCode : option Z;
  err_errorEn : option string;
  err_validationErrors : option (list (string * string));
  err_errors : option (list (string * string));
  err_code : option Z;
  err_keyValue : option (list string)
}.

(** A thrown value of the token service as an error object.  Instances
    of the [AppError] classes keep the inherited name [Error]. *)
Definition of_exn (stack : string) (e : exn) : error_object :=
  match e with
  | App a =>
      {| err_name := "Error"; err_message := Errors.message a; err_stack := stack;
         err_statusCode := Some (statusCode a); err_errorEn := Some (errorEn a);
         err_validationErrors := None; err_errors := None; err_code := None;
         err_keyValue := None |}
  | Lib name msg =>
      {| err_name := name; err_message := msg; err_stack := stack;
         err_statusCode := None; err_errorEn := None;
         err_validationErrors := None; err_errors := None; err_code := None;
         err_keyValue := None |}
  end.

(** The JSON body of an error response. *)
Record errorResponse := {
  status : string;
  error : string;
  error_en : string;
  message : string;
  message_en : string;
  stack : option string;
  validationErrors : option (list (string * string))
}.

Definition with_error (r : errorResponse) (e en : string) : errorResponse :=
  {| status := status r; error := e; error_en := en; message := message r;
     message_en := message_en r; stack := stack r;
     validationErrors := validationErrors r |}.

Definition with_message (r : errorResponse) (m men : string) : errorResponse :=
  {| status := status r; error := error r; error_en := error_en r; message := m;
     message_en := men; stack := stack r;
     validationErrors := validationErrors r |}.

Definition with_validationErrors (r : errorResponse)
    (v : list (string * string)) : errorResponse :=
  {| status := status r; error := error r; error_en := error_en r;
     message := message r; message_en := message_en r; stack := stack r;
     validationErrors := Some v |}.

Definition type_error : exn :=
  Lib "TypeError" "Cannot convert undefined or null to object".

(** [errorHandlerMiddleware]: the status and the body it sends, or the
    [TypeError] it runs into itself. *)
Definition errorHandlerMiddleware (NODE_ENV : option string) (err : error_object)
    : outcome (Z * errorResponse) :=
  let development :=
    match NODE_ENV with Some v => String.eqb v "development" | None => false end in
  let statusCode :=
    match err_statusCode err with
    | Some c => if c =? 0 then 500 else c
    | None => 500
    end in
  let errorResponse :=
    {| status := "error";
       error := if truthy (err_message err) then err_message err
                else "خطایی در سرور رخ داده است";
       error_en := or_default (err_errorEn err) "An error occurred on the server";
       message :=
         if development then err_message err
         else if statusCode =? 500 then "لطفا با پشتیبانی تماس بگیرید"
         else err_message err;
       message_en :=
         if development then err_message err
         else if statusCode =? 500 then "Please contact support"
         else or_default (err_errorEn err) (err_message err);
       stack := if development then Some (err_stack err) else None;
       validationErrors := err_validationErrors err |} in
  let mongoose_validation :=
    if String.eqb (err_name err) "ValidationError" then
      match err_errors err with
      | None => Throw type_error
      | Some errors =>
          Return (422, with_validationErrors
                         (with_error errorResponse
                            "اطلاعات ورودی نامعتبر است" "Invalid input data")
                         errors)
      end
    else Return (statusCode, errorResponse) in
  match mongoose_validation with
  | Throw e => Throw e
  | Return (statusCode, errorResponse) =>
  let duplicate_key :=
    if bool_decide (err_code err = Some 11000) then
      match err_keyValue err with
      | None => Throw type_error
      | Some keys =>
          let field := interpolate (head keys) in
          Return (409, with_error errorResponse
                         (field +:+ " قبلاً ثبت شده است")
                         (field +:+ " already exists"))
      end
    else Return (statusCode, errorResponse) in
  match duplicate_key with
  | Throw e => Throw e
  | Return (statusCode, errorResponse) =>
  let '(statusCode, errorResponse) :=
    if String.eqb (err_name err) "JsonWebTokenError" then
      (401, with_message (with_error errorResponse "توکن نامعتبر است" "Invalid token")
              "لطفا دوباره وارد شوید" "Please login again")
    else (statusCode, errorResponse) in
  let '(statusCode, errorResponse) :=
    if String.eqb (err_name err) "TokenExpiredError" then
      (401, with_message (with_error errorResponse "توکن منقضی شده است" "Token expired")
              "لطفا دوباره وارد شوید" "Please login again")
    else (statusCode, errorResponse) in
  Return (statusCode, errorResponse)
  end
  end.

(** [validate] of utils/validator.js on the entries of
    [validationResult(req).array()] (path and message): [None] stands
    for [next()], an error object for [next(error)]. *)
Definition validate (stack : string) (errors : list (string * string))
    : option error_object :=
  match errors with
  | [] => None
  | _ =>
      let extractedErrors := map (fun err => (err.1, err.2)) errors in
      Some {| err_name := "Error"; err_message := "اطلاعات ورودی نامعتبر است";
              err_stack := stack; err_statusCode := Some (status_of ValidationError);
              err_errorEn := Some "Invalid input data";
              err_validationErrors := Some extractedErrors;
              err_errors := None; err_code := None; err_keyValue := None |}
  end.

(** What the client receives for a handler wrapped in [asyncHandler]:
    the handler's JSON with status 200, the error middleware's answer to
    what the handler threw, or nothing as long as the handler's promise
    is pending. *)
Inductive http :=
| Json (body : list (string * json))
| ErrorJson (statusCode : Z) (body : errorResponse)
| HandlerCrash (e : exn)
| NoResponse.

Definition respond (NODE_ENV : option string) (stack : string)
    (result : async (list (string * json))) : http :=
  match result with
  | Settled (Return body) => Json body
  | Settled (Throw e) =>
      match errorHandlerMiddleware NODE_ENV (of_exn stack e) with
      | Return (statusCode, body) => ErrorJson statusCode body
      | Throw e' => HandlerCrash e'
      end
  | Pending => NoResponse
  end.

End ErrorHandler.

(** ** models/User.js and routes/auth.js: the routes that use the token
    service *)

Module AuthRoutes.

(** The two stores a handler works on: the [User] collection, keyed by
    [_id], and the client of the token service. *)
Record world := {
  users : gmap string user;
  redis : Redis.client
}.

(** [s.length]: the number of UTF-16 code units of a string held as
    well-formed UTF-8. *)
Fixpoint js_length (s : string) : Z :=
  match s with
  | EmptyString => 0
  | String c rest =>
      let b := N_of_ascii c in
      (if (b <? 128)%N then 1
       else if (b <? 192)%N then 0
       else if (b <? 240)%N then 1
       else 2) + js_length rest
  end.

(** [User.findOne(filter)]: some document that passes the filter. *)
Definition findOne (filter : user -> bool) (collection : gmap string user)
    : option user :=
  snd <$> List.find (fun kv => filter kv.2) (map_to_list collection).

(** [User.findById(id)]. *)
Definition findById (id : option string) (collection : gmap string user)
    : option user :=
  id ≫= (collection !!.).

Definition set_lastLogin (u : user) (t : Z) : user :=
  {| _id := _id u; username := username u; email := email u;
     password := password u; firstName := firstName u; lastName := lastName u;
     role := role u; favorites := favorites u; applications := applications u;
     createdAt := createdAt u; lastLogin := Some t |}.

Definition set_password (u : user) (pw : string) : user :=
  {| _id := _id u; username := username u; email := email u; password := pw;
     firstName := firstName u; lastName := lastName u; role := role u;
     favorites := favorites u; applications := applications u;
     createdAt := createdAt u; lastLogin := lastLogin u |}.

(** The user object of the login response. *)
Definition user_summary (u : user) : json :=
  JObject
    [ ("id", JString (_id u));
      ("username", JString (username u));
      ("email", JString (email u));
      ("firstName", JString (or_default (firstName u) ""));
      ("lastName", JString (or_default (lastName u) ""));
      ("role", JString (role u)) ].

Section Handlers.
Context `{JwtLib}.
Variable process_env : env.

(** [bcrypt.compare(candidate, hash)] and [bcrypt.hash(password, salt)];
    the salt of [bcrypt.genSalt(10)] is an input of the handler. *)
Variable bcrypt_compare : string -> string -> bool.
Variable bcrypt_hash : string -> string -> string.

(** What Mongoose makes of a string in a query on the paths [username]
    and [email]: it runs the setters of the schema on it ([trim]; [trim]
    and [lowercase]). *)
Variable cast_username : string -> string.
Variable cast_email : string -> string.

(** [userSchema.methods.comparePassword]. *)
Definition comparePassword (this : user) (candidatePassword : string) : bool :=
  bcrypt_compare candidatePassword (password this).

(** [user.save()] with the [pre('save')] hook: the password is hashed
    when it was modified, and the document is written back. *)
Definition save (passwordModified : bool) (salt : string) (u : user)
    (collection : gmap string user) : gmap string user :=
  let u' := if passwordModified then set_password u (bcrypt_hash (password u) salt)
            else u in
  <[_id u := u']> collection.

Definition invalid_credentials : exn :=
  App (new UnauthorizedError
    "نام کاربری یا رمز عبور نادرست است" "Invalid username or password").

(** [POST /login], after the validators: [username] and [password] are
    the body fields, [now] is the clock. *)
Definition login (username_ password_ : string) (now : Z) (w : world)
    : async (list (string * json)) * world :=
  let found :=
    findOne (fun u => String.eqb (username u) (cast_username username_)
                      || String.eqb (email u) (cast_email username_)) (users w) in
  match found with
  | None => (Settled (Throw invalid_credentials), w)
  | Some u =>
      if negb (comparePassword u password_)
      then (Settled (Throw invalid_credentials), w)
      else
        let u := set_lastLogin u now in
        let users' := save false "" u (users w) in
        match generateAccessToken process_env u now with
        | Throw e => (Settled (Throw e), {| users := users'; redis := redis w |})
        | Return accessToken =>
            match generateRefreshToken process_env u now (redis w) with
            | (Pending, redis') => (Pending, {| users := users'; redis := redis' |})
            | (Settled (Throw e), redis') =>
                (Settled (Throw e), {| users := users'; redis := redis' |})
            | (Settled (Return refreshToken), redis') =>
                (Settled (Return [ ("success", JBool true);
                                   ("user", user_summary u);
                                   ("accessToken", JString accessToken);
                                   ("refreshToken", JString refreshToken) ]),
                 {| users := users'; redis := redis' |})
            end
        end
  end.

(** [POST /refresh-token]; [refreshToken] is the body field when it is
    a string. *)
Definition refresh_token_route (refreshToken : option string) (now : Z)
    (w : world) : async (list (string * json)) * world :=
  match refreshToken with
  | Some (String _ _ as refreshToken) =>
      match verifyRefreshToken process_env refreshToken now (redis w) with
      | (Pending, redis') => (Pending, {| users := users w; redis := redis' |})
      | (Settled (Throw e), redis') =>
          (Settled (Throw e), {| users := users w; redis := redis' |})
      | (Settled (Return decoded), redis') =>
          let w' := {| users := users w; redis := redis' |} in
          match findById (body decoded !! "id") (users w) with
          | None =>
              (Settled (Throw (App (new NotFoundError
                 "کاربر یافت نشد" "User not found"))), w')
          | Some u =>
              match generateAccessToken process_env u now with
              | Throw e => (Settled (Throw e), w')
              | Return accessToken =>
                  (Settled (Return [ ("success", JBool true);
                                     ("accessToken", JString accessToken) ]), w')
              end
          end
      end
  | _ =>
      (Settled (Throw (App (new BadRequestError
         "توکن بازیابی الزامی است" "Refresh token is required"))), w)
  end.

(** A route behind [auth.authenticateToken]: the handler runs on the
    request the guard passes on; what the guard throws or hands to
    [next] ends the request. *)
Definition guarded {A : Type} (req : request) (now : Z) (w : world)
    (handler : request -> async A * world) : async A * world :=
  match authenticateToken process_env req now with
  | Next req' => handler req'
  | NextError e => (Settled (Throw e), w)
  | Thrown e => (Settled (Throw e), w)
  end.

Definition no_user : exn := Lib "TypeError" "Cannot read properties of undefined".

(** [POST /logout]. *)
Definition logout (req : request) (refreshToken : option string) (now : Z)
    (w : world) : async (list (string * json)) * world :=
  guarded req now w (fun req =>
    match refreshToken with
    | Some (String _ _) =>
        match req_user req with
        | None => (Settled (Throw no_user), w)
        | Some decoded =>
            match invalidateRefreshToken (interpolate (body decoded !! "id"))
                    (redis w) with
            | (Pending, redis') => (Pending, {| users := users w; redis := redis' |})
            | (Settled (Throw e), redis') =>
                (Settled (Throw e), {| users := users w; redis := redis' |})
            | (Settled (Return _), redis') =>
                (Settled (Return [ ("success", JBool true);
                                   ("message", JString "خروج با موفقیت انجام شد");
                                   ("message_en", JString "Logout successful") ]),
                 {| users := users w; redis := redis' |})
            end
        end
    | _ =>
        (Settled (Throw (App (new BadRequestError
           "توکن بازیابی الزامی است" "Refresh token is required"))), w)
    end).

(** [POST /change-password]; [salt] is what [bcrypt.genSalt] yields if
    the handler gets as far as saving. *)
Definition change_password (req : request)
    (currentPassword newPassword confirmPassword : option string)
    (salt : string) (now : Z) (w : world)
    : async (list (string * json)) * world :=
  guarded req now w (fun req =>
    match currentPassword, newPassword, confirmPassword with
    | Some currentPassword, Some newPassword, Some confirmPassword =>
      if negb (truthy currentPassword) || negb (truthy newPassword)
         || negb (truthy confirmPassword) then
        (Settled (Throw (App (new BadRequestError
           "تمام فیلدها الزامی هستند" "All fields are required"))), w)
      else if negb (String.eqb newPassword confirmPassword) then
        (Settled (Throw (App (new BadRequestError
           "تایید رمز عبور با رمز عبور جدید مطابقت ندارد"
           "New password and confirmation do not match"))), w)
      else if js_length newPassword <? 6 then
        (Settled (Throw (App (new BadRequestError
           "رمز عبور جدید باید حداقل 6 کاراکتر باشد"
           "New password must be at least 6 characters"))), w)
      else
        match req_user req with
        | None => (Settled (Throw no_user), w)
        | Some decoded =>
        match findById (body decoded !! "id") (users w) with
        | None =>
            (Settled (Throw (App (new NotFoundError
               "کاربر یافت نشد" "User not found"))), w)
        | Some u =>
            if negb (comparePassword u currentPassword) then
              (Settled (Throw (App (new UnauthorizedError
                 "رمز عبور فعلی نادرست است" "Current password is incorrect"))), w)
            else
              let modified := negb (String.eqb newPassword (password u)) in
              let users' := save modified salt (set_password u newPassword) (users w) in
              match invalidateRefreshToken (_id u) (redis w) with
              | (Pending, redis') => (Pending, {| users := users'; redis := redis' |})
              | (Settled (Throw e), redis') =>
                  (Settled (Throw e), {| users := users'; redis := redis' |})
              | (Settled (Return _), redis') =>
                  (Settled (Return
                     [ ("success", JBool true);
                       ("message", JString "رمز عبور با موفقیت تغییر کرد");
                       ("message_en", JString "Password changed successfully") ]),
                   {| users := users'; redis := redis' |})
              end
        end
        end
    | _, _, _ =>
        (Settled (Throw (App (new BadRequestError
           "تمام فیلدها الزامی هستند" "All fields are required"))), w)
    end).

End Handlers.

End AuthRoutes.

(** ** server.js: the manual sync route; services/syncService.js *)

Module Sync.

(** What [POST /api/sync] does before it synchronises. *)
Inductive gate :=
| Refuse (statusCode : Z) (error_en : string)
| Proceed.

(** The two checks on [NODE_ENV], [API_KEY] and the [x-api-key] header. *)
Definition sync_gate (NODE_ENV API_KEY x_api_key : option string) : gate :=
  let production :=
    match NODE_ENV with Some v => String.eqb v "production" | None => false end in
  if production && negb (match x_api_key with Some k => truthy k | None => false end)
  then Refuse 401 "API key required"
  else if production && negb (bool_decide (x_api_key = API_KEY))
  then Refuse 403 "Invalid API key"
  else Proceed.

(** What a sync service reports. *)
Record service_result := { success : bool; detail : string }.

(** What [syncAllData] returns. *)
Record report := {
  report_success : bool;
  university : service_result;
  job : service_result;
  timestamp : Z
}.

(** [syncAllData] on the outcomes of its two service calls, at clock
    [now].  ([clearCachePattern] catches its own errors.) *)
Definition syncAllData (universityResult jobResult : outcome service_result)
    (now : Z) : outcome report :=
  let attempt :=
    match universityResult with
    | Throw e => Throw e
    | Return universityResult =>
        match jobResult with
        | Throw e => Throw e
        | Return jobResult =>
            Return {| report_success := success universityResult && success jobResult;
                      university := universityResult; job := jobResult;
                      timestamp := now |}
        end
    end in
  match attempt with
  | Return result => Return result
  | Throw _ =>
      Throw (App (new InternalServerError
        "خطا در همگام‌سازی داده‌ها" "Error synchronizing data"))
  end.

(** What the client of [POST /api/sync] receives. *)
Inductive sync_response :=
| Refused (statusCode : Z) (error_en : string)
| Done (result : report)
| Failed (statusCode : Z) (body : ErrorHandler.errorResponse)
| Crashed (e : exn).

Definition sync_route (NODE_ENV API_KEY x_api_key : option string)
    (stack : string) (universityResult jobResult : outcome service_result)
    (now : Z) : sync_response :=
  match sync_gate NODE_ENV API_KEY x_api_key with
  | Refuse statusCode error_en => Refused statusCode error_en
  | Proceed =>
      match syncAllData universityResult jobResult now with
      | Return result => Done result
      | Throw error =>
          match ErrorHandler.errorHandlerMiddleware NODE_ENV
                  (ErrorHandler.of_exn stack error) with
          | Return (statusCode, body) => Failed statusCode body
          | Throw e => Crashed e
          end
      end
  end.

End Sync.

(** ** routes/job.js, routes/university.js: paging of the list routes *)

Module Paging.

(** [parseInt(v) || fallback]; [None] is [NaN]. *)
Definition parsed_or (v : option Z) (fallback : Z) : Z :=
  match v with
  | Some n => if n =? 0 then fallback else n
  | None => fallback
  end.

Definition page (page_query : option Z) : Z := parsed_or page_query 1.

Definition limit (limit_query : option Z) : Z :=
  Z.min (parsed_or limit_query 20) 100.

Definition skip (page_query limit_query : option Z) : Z :=
  (page page_query - 1) * limit limit_query.

(** [Math.ceil(total / limit)], exact while the count stays below
    2^46. *)
Definition totalPages (total : Z) (limit_query : option Z) : Z :=
  - ((- total) / limit limit_query).

End Paging.

(** ** Vocabulary of the further properties *)

(** [process.env.NODE_ENV === 'development']. *)
Definition development (NODE_ENV : option string) : bool :=
  match NODE_ENV with Some v => String.eqb v "development" | None => false end.

(** Names the error middleware treats specially. *)
Definition special_name (name : string) : bool :=
  String.eqb name "ValidationError" || String.eqb name "JsonWebTokenError"
  || String.eqb name "TokenExpiredError".

(** The login name [name], as the query casts it, is the user's
    username or email. *)
Definition names (cast_username cast_email : string -> string)
    (u : user) (name : string) : Prop :=
  username u = cast_username name \/ email u = cast_email name.

(** The client after it was given the command [args], which leaves the
    keys as [d] when the server is reached: the command is recorded;
    when the server cannot be reached the keys stay and the command's
    rejection goes unhandled. *)
Definition after_command (args : list string) (d : gmap string Redis.entry)
    (redis : Redis.client) : Redis.client :=
  {| Redis.failure := Redis.failure redis;
     Redis.data := match Redis.failure redis with
                   | None => d
                   | Some _ => Redis.data redis
                   end;
     Redis.commands := Redis.commands redis ++ [args];
     Redis.unhandled :=
       Redis.unhandled redis
       ++ match Redis.failure redis with
          | None => []
          | Some err => [Lib "Error" err]
          end |}.

Definition refresh_required : exn :=
  App (new BadRequestError "توکن بازیابی الزامی است" "Refresh token is required").

Definition production (NODE_ENV : option string) : Prop :=
  NODE_ENV = Some "production".

(** The request carries a non-empty [x-api-key] header. *)
Definition key_present (x_api_key : option string) : Prop :=
  exists k, x_api_key = Some k /\ truthy k = true.

(** ** Concrete inputs of the further properties *)

(** Stand-ins for the setters of the schema on ASCII text: [trim] of
    text without surrounding blanks, and [toLowerCase]. *)
Definition lower_char (c : ascii) : ascii :=
  let n := N_of_ascii c in
  if ((65 <=? n) && (n <=? 90))%N then ascii_of_N (n + 32) else c.

Fixpoint lower0 (s : string) : string :=
  match s with
  | EmptyString => EmptyString
  | String c rest => String (lower_char c) (lower0 rest)
  end.

Definition trim0 (s : string) : string := s.

(** Stand-ins for [bcrypt.hash] and [bcrypt.compare]. *)
Definition hash0 (pw salt : string) : string := "$2b$10$" +:+ salt +:+ pw.
Definition compare0 (candidate hashed : string) : bool :=
  String.eqb hashed (hash0 candidate "salt").

Definition carol : user :=
  {| _id := "65f1c0ffef"; username := "carol"; email := "c@x.com";
     password := hash0 "secret1" "salt"; firstName := Some "Carol";
     lastName := None; role := "user";
     favorites := JObject [("universities", JArray []); ("jobs", JArray [])];
     applications := JArray []; createdAt := 0; lastLogin := None |}.

Definition world0 : AuthRoutes.world :=
  {| AuthRoutes.users := {[ _id carol := carol ]}; AuthRoutes.redis := redis0 |}.

(** One secret for both token classes. *)
Definition env_shared : env :=
  {| JWT_SECRET := Some "s3cret"; JWT_EXPIRES_IN := None;
     JWT_REFRESH_SECRET := Some "s3cret"; JWT_REFRESH_EXPIRES_IN := None |}.

(** The claims of the access token [generateAccessToken] signs for
    [carol] at 1000 ms under [env0]. *)
Definition carol_claims : claims :=
  {| body := <["id" := _id carol]> (<["username" := username carol]>
               (<["email" := email carol]> (<["role" := role carol]> ∅)));
     iat := 1; exp := Some 901 |}.

(** A request that presents the access token [generateAccessToken]
    signs for [carol] at 1000 ms under [env0]. *)
Definition carol_request `{JwtLib} : request :=
  {| authorization :=
       Some ("Bearer " +:+
             jws_sign {| body := <["id" := _id carol]> (<["username" := username carol]>
                                   (<["email" := email carol]> (<["role" := role carol]> ∅)));
                         iat := 1; exp := Some 901 |}
                      (access_secret env0));
     req_user := None |}.

(** * Facts *)

(** ** Splitting strings *)

Module SplitFacts.

Lemma has_char_cons c d s :
  has_char c (String d s) = Ascii.eqb d c || has_char c s.
Proof. reflexivity. Qed.

Lemma has_char_app c a b :
  has_char c (a +:+ b) = has_char c a || has_char c b.
Proof.
  induction a as [|d a IH]; simpl; [reflexivity|].
  rewrite IH. apply orb_assoc.
Qed.

Lemma split_cons sep s : exists piece pieces, split sep s = piece :: pieces.
Proof.
  induction s as [|c s (piece & pieces & IH)]; simpl; [eauto|].
  destruct (Ascii.eqb c sep); [eauto|]. rewrite IH. eauto.
Qed.

Lemma split_whole sep s : has_char sep s = false -> split sep s = [s].
Proof.
  induction s as [|c s IH]; simpl; [reflexivity|].
  intros [Hc Hs]%orb_false_elim. rewrite Hc, (IH Hs). reflexivity.
Qed.

Lemma split_app sep a b :
  has_char sep a = false ->
  split sep (a +:+ String sep b) = a :: split sep b.
Proof.
  induction a as [|c a IH]; simpl.
  - intros _. rewrite Ascii.eqb_refl. reflexivity.
  - intros [Hc Ha]%orb_false_elim. rewrite Hc, (IH Ha). reflexivity.
Qed.

(** The second piece of [scheme token] is [token]. *)
Lemma split_second sep a b :
  has_char sep a = false -> has_char sep b = false ->
  split sep (a +:+ String sep b) !! 1%nat = Some b.
Proof.
  intros Ha Hb. rewrite (split_app _ _ _ Ha), (split_whole _ _ Hb). reflexivity.
Qed.

Lemma split_single sep s : has_char sep s = false -> split sep s !! 1%nat = None.
Proof. intros Hs. rewrite (split_whole _ _ Hs). reflexivity. Qed.

End SplitFacts.
Import SplitFacts.

(** ** The reference implementation satisfies the interface laws *)

Module RefJwtFacts.
Import RefJwt.

Lemma hex_digits_hex (a : ascii) :
  is_hex (hex_digit (N_of_ascii a / 16)) = true /\
  is_hex (hex_digit (N_of_ascii a mod 16)) = true.
Proof. destruct a as [[] [] [] [] [] [] [] []]; split; reflexivity. Qed.

Lemma unhex_pair (a : ascii) (r : string) :
  unhex (String (hex_digit (N_of_ascii a / 16))
           (String (hex_digit (N_of_ascii a mod 16)) r))
  = option_map (String a) (unhex r).
Proof.
  destruct a as [[] [] [] [] [] [] [] []]; cbn; destruct (unhex r); reflexivity.
Qed.

Lemma unhex_hexs s : unhex (hexs s) = Some s.
Proof.
  induction s as [|a s IH]; [reflexivity|].
  cbn [hexs]. rewrite unhex_pair, IH. reflexivity.
Qed.

Lemma is_hex_neq c d : is_hex c = false -> is_hex d = true -> Ascii.eqb d c = false.
Proof.
  intros Hc Hd. destruct (Ascii.eqb_spec d c) as [->|]; [congruence|reflexivity].
Qed.

Lemma hexs_free c s : is_hex c = false -> has_char c (hexs s) = false.
Proof.
  intros Hc. induction s as [|a s IH]; [reflexivity|].
  cbn [hexs has_char]. destruct (hex_digits_hex a) as [Hhi Hlo].
  rewrite (is_hex_neq _ _ Hc Hhi), (is_hex_neq _ _ Hc Hlo), IH. reflexivity.
Qed.

Lemma dec_enc_num z : dec_num (enc_num z) = Some z.
Proof.
  unfold dec_num, enc_num. rewrite unhex_hexs, NilEmpty.isi. cbn.
  rewrite DecimalZ.of_to. reflexivity.
Qed.

Lemma dec_enc_entry kv : dec_entry (enc_entry kv) = Some kv.
Proof.
  destruct kv as [k v]. unfold dec_entry, enc_entry. cbn [fst snd].
  change ("-" +:+ hexs v) with (String "-" (hexs v)).
  rewrite split_app, split_whole by (apply hexs_free; reflexivity).
  rewrite !unhex_hexs. reflexivity.
Qed.

Lemma enc_entry_free c kv :
  is_hex c = false -> Ascii.eqb "-" c = false -> has_char c (enc_entry kv) = false.
Proof.
  intros Hh Hd. unfold enc_entry.
  rewrite !has_char_app, !hexs_free, has_char_cons, Hd by assumption.
  reflexivity.
Qed.

Lemma enc_body_free c l : off_body c -> has_char c (enc_body l) = false.
Proof.
  intros (Hh & Hd & Hu). induction l as [|kv l IH]; [reflexivity|].
  cbn [enc_body]. rewrite !has_char_app, enc_entry_free, IH by assumption.
  rewrite has_char_cons, Hu. reflexivity.
Qed.

Lemma dec_enc_body l : dec_items (split "_" (enc_body l)) = Some l.
Proof.
  induction l as [|kv l IH]; [reflexivity|].
  cbn [enc_body]. change ("_" +:+ enc_body l) with (String "_" (enc_body l)).
  rewrite split_app by (apply enc_entry_free; reflexivity).
  destruct (split_cons "_" (enc_body l)) as (piece & pieces & Hsplit).
  rewrite Hsplit in *. cbn [dec_items]. cbn [dec_items] in IH.
  rewrite dec_enc_entry, IH. reflexivity.
Qed.

Lemma enc_exp_free c e :
  is_hex c = false -> Ascii.eqb "N" c = false -> Ascii.eqb "S" c = false ->
  has_char c (enc_exp e) = false.
Proof.
  intros Hh Hn Hs. destruct e as [z|]; cbn [enc_exp].
  - change ("S" +:+ enc_num z) with (String "S" (enc_num z)).
    unfold enc_num. rewrite has_char_cons, Hs, hexs_free by assumption.
    reflexivity.
  - rewrite has_char_cons, Hn. reflexivity.
Qed.

Lemma dec_enc_exp e : dec_exp (enc_exp e) = Some e.
Proof.
  destruct e as [z|]; [|reflexivity].
  change (dec_exp (enc_exp (Some z))) with (option_map Some (dec_num (enc_num z))).
  rewrite dec_enc_num. reflexivity.
Qed.

End RefJwtFacts.

Module RefJwtLaws.
Import RefJwt RefJwtFacts.

Lemma enc_claims_free c cl :
  off_body c -> Ascii.eqb "I" c = false -> Ascii.eqb "E" c = false ->
  Ascii.eqb "N" c = false -> Ascii.eqb "S" c = false ->
  has_char c (enc_claims cl) = false.
Proof.
  intros Hb Hi He Hn Hs. unfold enc_claims.
  change ("I" +:+ enc_num (iat cl) +:+ "E" +:+ enc_exp (exp cl))
    with (String "I" (enc_num (iat cl) +:+ String "E" (enc_exp (exp cl)))).
  rewrite has_char_app, has_char_cons, has_char_app, has_char_cons.
  rewrite enc_body_free, Hi, He, enc_exp_free by (assumption || apply Hb).
  unfold enc_num. rewrite hexs_free by apply Hb. reflexivity.
Qed.

Lemma dec_enc_claims cl : dec_claims (enc_claims cl) = Some cl.
Proof.
  unfold dec_claims, enc_claims.
  change ("I" +:+ enc_num (iat cl) +:+ "E" +:+ enc_exp (exp cl))
    with (String "I" (enc_num (iat cl) +:+ String "E" (enc_exp (exp cl)))).
  rewrite split_app by (apply enc_body_free; repeat split; reflexivity).
  rewrite (split_whole "I").
  2:{ rewrite has_char_app, has_char_cons, enc_exp_free by reflexivity.
      unfold enc_num. rewrite hexs_free by reflexivity. reflexivity. }
  rewrite split_app by (unfold enc_num; apply hexs_free; reflexivity).
  rewrite split_whole by (apply enc_exp_free; reflexivity).
  rewrite dec_enc_body, dec_enc_num, dec_enc_exp, list_to_map_to_list.
  destruct cl; reflexivity.
Qed.

Lemma ref_sign_shape cl key :
  ref_sign cl key
  = header +:+ String "." (enc_claims cl +:+
      String "." (tag key (header +:+ "." +:+ enc_claims cl))).
Proof. reflexivity. Qed.

Lemma ref_verify_sign cl key : ref_verify (ref_sign cl key) key = Some cl.
Proof.
  unfold ref_verify. rewrite ref_sign_shape.
  assert (Hfree : forall c, off_body c -> Ascii.eqb "I" c = false ->
              Ascii.eqb "E" c = false -> Ascii.eqb "N" c = false ->
              Ascii.eqb "S" c = false ->
              has_char c (enc_claims cl) = false /\
              has_char c (tag key (header +:+ "." +:+ enc_claims cl)) = false).
  { intros c Hb Hi He Hn Hs. split; [apply enc_claims_free; assumption|].
    apply hexs_free, Hb. }
  destruct (Hfree " "%char) as [Hsp1 Hsp2]; try reflexivity; [repeat split; reflexivity|].
  destruct (Hfree "."%char) as [Hd1 Hd2]; try reflexivity; [repeat split; reflexivity|].
  rewrite has_char_app, has_char_cons, has_char_app, has_char_cons, Hsp1, Hsp2.
  cbn [has_char header orb Ascii.eqb Bool.eqb].
  rewrite (split_app "." header) by reflexivity.
  rewrite split_app, split_whole by assumption.
  rewrite !String.eqb_refl. cbn [andb]. apply dec_enc_claims.
Qed.

Lemma ref_verify_no_space t key cl :
  ref_verify t key = Some cl -> has_char " " t = false.
Proof. unfold ref_verify. destruct (has_char " " t); [discriminate|reflexivity]. Qed.

End RefJwtLaws.

(** The reference implementation as an instance of the interface. *)
#[export] Instance ref_jwt : JwtLib := {|
  jws_sign := RefJwt.ref_sign;
  jws_verify := RefJwt.ref_verify;
  ms := RefJwt.ref_ms;
  jws_verify_sign := RefJwtLaws.ref_verify_sign;
  jws_verify_empty := fun _ => eq_refl;
  jws_verify_no_space := RefJwtLaws.ref_verify_no_space;
  ms_15m := eq_refl;
  ms_7d := eq_refl
|}.

(** ** Helper lemmas on the jsonwebtoken dependency *)

Section DependencyFacts.
Context `{JwtLib}.

Lemma verify_Return token secret now decoded :
  Jwt.verify token secret now = Return decoded <->
  signed_and_fresh token secret now decoded.
Proof.
  unfold Jwt.verify, signed_and_fresh.
  destruct (jws_verify token secret) as [c|]; [|split; [|intros [? _]]; discriminate].
  destruct (exp c) as [e|] eqn:He.
  - destruct (Z.geb_spec (now / 1000) e) as [Hge|Hlt].
    + split; [discriminate|]. intros [[= ->] Hf]. specialize (Hf _ He). lia.
    + split.
      * intros [= ->]. split; [reflexivity|]. intros e' He'. congruence.
      * intros [[= ->] _]. reflexivity.
  - split.
    + intros [= ->]. split; [reflexivity|]. congruence.
    + intros [[= ->] _]. reflexivity.
Qed.

Lemma verify_nonempty token secret now decoded :
  Jwt.verify token secret now = Return decoded -> truthy token = true.
Proof.
  intros [Hv _]%verify_Return. destruct token; [|reflexivity].
  rewrite jws_verify_empty in Hv. discriminate.
Qed.

End DependencyFacts.

(** ** Helper lemmas on the token service *)

Section StoreFacts.

(** The three promisified commands never settle; what they leave
    behind is the command, its effect on the keys, and the rejection
    when there is one. *)
Lemma redisGet_pending key now redis :
  redisGet key now redis
  = (Pending, after_command ["GET"; key] (Redis.data redis) redis).
Proof.
  unfold redisGet, promisified, Redis.get, after_command, Redis.given. cbn.
  destruct (Redis.failure redis) eqn:Hf; cbn; rewrite ?Hf, ?app_nil_r; reflexivity.
Qed.

Lemma redisSet_pending key val flag seconds now redis :
  redisSet key val [Redis.Str flag; Redis.Num seconds] now redis
  = (Pending, after_command ["SET"; key; val]
                (<[key := refresh_entry val]> (Redis.data redis)) redis).
Proof.
  unfold redisSet, promisified, Redis.set, after_command, Redis.given, Redis.stored.
  cbn. destruct (Redis.failure redis) eqn:Hf; cbn; rewrite ?Hf, ?app_nil_r; reflexivity.
Qed.

Lemma redisDel_pending key redis :
  redisDel key redis
  = (Pending, after_command ["DEL"; key] (delete key (Redis.data redis)) redis).
Proof.
  unfold redisDel, promisified, Redis.del, after_command, Redis.given, Redis.stored.
  cbn. destruct (Redis.failure redis) eqn:Hf; cbn; rewrite ?Hf, ?app_nil_r; reflexivity.
Qed.

Lemma tokenKey_inj a b : tokenKey a = tokenKey b -> a = b.
Proof. unfold tokenKey. intros Heq. simpl in Heq. injection Heq. auto. Qed.

End StoreFacts.

Section ServiceFacts.
Context `{JwtLib}.
Variable process_env : env.

Lemma generateRefreshToken_pending u now redis span :
  refresh_lifetime process_env = Some span ->
  generateRefreshToken process_env u now redis
  = (Pending,
     after_command ["SET"; tokenKey (_id u); refresh_token process_env u now span]
       (<[tokenKey (_id u) := refresh_entry (refresh_token process_env u now span)]>
          (Redis.data redis)) redis).
Proof.
  unfold refresh_lifetime, generateRefreshToken, Jwt.sign. intros ->.
  rewrite redisSet_pending. reflexivity.
Qed.

(** All [generateRefreshToken] can do besides staying pending is throw
    what [jwt.sign] threw. *)
Lemma generateRefreshToken_cases u now redis :
  (exists redis', generateRefreshToken process_env u now redis = (Pending, redis'))
  \/ (exists msg,
        generateRefreshToken process_env u now redis
        = (Settled (Throw (Lib "Error" msg)), redis)).
Proof.
  destruct (refresh_lifetime process_env) as [span|] eqn:Hspan.
  - left. rewrite (generateRefreshToken_pending _ _ _ _ Hspan). eauto.
  - right. unfold refresh_lifetime in Hspan.
    unfold generateRefreshToken, Jwt.sign. rewrite Hspan. eauto.
Qed.

Lemma verifyRefreshToken_fresh token now redis decoded :
  signed_and_fresh token (refresh_secret process_env) now decoded ->
  verifyRefreshToken process_env token now redis
  = (Pending,
     after_command ["GET"; tokenKey (interpolate (body decoded !! "id"))]
       (Redis.data redis) redis).
Proof.
  intros Hv%verify_Return. unfold verifyRefreshToken, verifyRefreshToken_try.
  rewrite Hv, redisGet_pending. reflexivity.
Qed.

Lemma verifyRefreshToken_stale token now redis :
  (forall decoded, ~ signed_and_fresh token (refresh_secret process_env) now decoded) ->
  verifyRefreshToken process_env token now redis
  = (Settled (Throw token_expired), redis).
Proof.
  intros Hbad. unfold verifyRefreshToken, verifyRefreshToken_try.
  destruct (Jwt.verify token (refresh_secret process_env) now) as [d|e] eqn:Hv;
    [|reflexivity].
  apply verify_Return in Hv. destruct (Hbad d Hv).
Qed.

Lemma verifyRefreshToken_cases token now redis :
  verifyRefreshToken process_env token now redis
  = (Settled (Throw token_expired), redis) /\
  (forall decoded, ~ signed_and_fresh token (refresh_secret process_env) now decoded)
  \/ exists decoded,
       signed_and_fresh token (refresh_secret process_env) now decoded /\
       verifyRefreshToken process_env token now redis
       = (Pending,
          after_command ["GET"; tokenKey (interpolate (body decoded !! "id"))]
            (Redis.data redis) redis).
Proof.
  destruct (Jwt.verify token (refresh_secret process_env) now) as [d|e] eqn:Hv.
  - right. apply verify_Return in Hv. exists d. split; [exact Hv|].
    apply verifyRefreshToken_fresh, Hv.
  - left. assert (Hbad : forall decoded,
      ~ signed_and_fresh token (refresh_secret process_env) now decoded).
    { intros d Hd%verify_Return. congruence. }
    split; [apply verifyRefreshToken_stale, Hbad | exact Hbad].
Qed.

Lemma invalidateRefreshToken_pending userId redis :
  invalidateRefreshToken userId redis
  = (Pending,
     after_command ["DEL"; tokenKey userId]
       (delete (tokenKey userId) (Redis.data redis)) redis).
Proof. unfold invalidateRefreshToken. rewrite redisDel_pending. reflexivity. Qed.

(** A token the service signed checks out until its expiry. *)
Lemma refresh_token_fresh u t span now :
  now / 1000 < t / 1000 + span / 1000 ->
  signed_and_fresh (refresh_token process_env u t span)
    (refresh_secret process_env) now (refresh_claims u t span).
Proof.
  intros Hexp. unfold signed_and_fresh, refresh_token. rewrite jws_verify_sign.
  split; [reflexivity|]. intros e [= <-]. exact Hexp.
Qed.

Lemma verifyAccessToken_cases token now :
  (exists decoded, verifyAccessToken process_env token now = Return decoded)
  \/ verifyAccessToken process_env token now = Throw invalid_token.
Proof.
  unfold verifyAccessToken.
  destruct (Jwt.verify token (access_secret process_env) now); eauto.
Qed.

(** A token that verifies is not empty and contains no space. *)
Lemma verifyAccessToken_shape token now decoded :
  verifyAccessToken process_env token now = Return decoded ->
  truthy token = true /\ has_char " " token = false.
Proof.
  unfold verifyAccessToken.
  destruct (Jwt.verify token (access_secret process_env) now) as [d|] eqn:Hv;
    [|discriminate].
  intros _. split; [eapply verify_nonempty; eassumption|].
  apply verify_Return in Hv as [Hsig _]. eapply jws_verify_no_space; eassumption.
Qed.

(** The guard as a function of the token it extracts. *)
Lemma authenticateToken_presented req now :
  authenticateToken process_env req now
  = match presented (authorization req) with
    | Some token =>
        match verifyAccessToken process_env token now with
        | Return decoded =>
            Next {| authorization := authorization req; req_user := Some decoded |}
        | Throw error => NextError error
        end
    | None => Thrown token_required
    end.
Proof.
  unfold authenticateToken, presented.
  destruct (authorization req) as [[|c h]|]; [reflexivity| |reflexivity].
  cbn [truthy]. destruct (split " " (String c h) !! 1%nat) as [[|c' t]|]; reflexivity.
Qed.

Lemma presented_scheme scheme token :
  has_char " " scheme = false -> has_char " " token = false ->
  truthy token = true ->
  presented (Some (scheme +:+ " " +:+ token)) = Some token.
Proof.
  intros Hs Ht Hne. unfold presented.
  change (scheme +:+ " " +:+ token) with (scheme +:+ String " " token).
  rewrite split_second, Hne by assumption. reflexivity.
Qed.

Lemma presented_single h : has_char " " h = false -> presented (Some h) = None.
Proof. intros Hh. unfold presented. rewrite split_single by assumption. reflexivity. Qed.

End ServiceFacts.

(** * The claims *)

Section Claims.
Context `{JwtLib}.
Variable process_env : env.

(** C1.  [verifyRefreshToken] never returns decoded claims.  A token
    that fails the check of signature and expiry is rejected with the
    [UnauthorizedError] (status 401), and the client is not touched.
    For a token that passes it, whatever the store holds, the function
    gives the client [GET refresh_token:<id of the claims>] and stays
    pending: the promisified command never calls back, so the reply is
    never compared with the token. *)
Theorem verifyRefreshToken_never_returns (token : string) (now : Z)
    (redis : Redis.client) :
  (forall decoded redis',
      verifyRefreshToken process_env token now redis
      <> (Settled (Return decoded), redis')) /\
  ((forall decoded,
       ~ signed_and_fresh token (refresh_secret process_env) now decoded) ->
   verifyRefreshToken process_env token now redis
   = (Settled (Throw token_expired), redis)) /\
  (forall decoded,
      signed_and_fresh token (refresh_secret process_env) now decoded ->
      exists redis',
        verifyRefreshToken process_env token now redis = (Pending, redis') /\
        Redis.commands redis'
        = (Redis.commands redis
          ++ [["GET"; "refresh_token:" +:+ interpolate (body decoded !! "id")]])%list /\
        Redis.data redis' = Redis.data redis) /\
  authentication_error token_expired.
Proof.
  split; [|split; [|split]].
  - intros decoded redis'.
    destruct (verifyRefreshToken_cases process_env token now redis)
      as [[-> _]|(d & _ & ->)]; discriminate.
  - apply verifyRefreshToken_stale.
  - intros decoded Hfresh.
    rewrite (verifyRefreshToken_fresh _ _ _ _ _ Hfresh).
    eexists. split; [reflexivity|]. split; [reflexivity|].
    unfold after_command. cbn. destruct (Redis.failure redis); reflexivity.
  - eexists. repeat split.
Qed.

(** C2.  When [generateRefreshToken] runs twice for one user, neither
    call ever yields a token: both stay pending.  With the store in
    reach the second call does overwrite the user's entry.  Afterwards
    the token signed first is not rejected: while it has not expired its
    verification stays pending, exactly like that of the second, and no
    token at all verifies. *)
Theorem refresh_reissue_never_settles (u : user) (now1 now2 now3 span : Z)
    (redis : Redis.client) :
  refresh_lifetime process_env = Some span ->
  exists redis1 redis2,
    generateRefreshToken process_env u now1 redis = (Pending, redis1) /\
    generateRefreshToken process_env u now2 redis1 = (Pending, redis2) /\
    (Redis.failure redis = None ->
     Redis.data redis2 !! ("refresh_token:" +:+ _id u)
     = Some {| Redis.value := refresh_token process_env u now2 span;
               Redis.expireAt := None |}) /\
    (now3 / 1000 < now1 / 1000 + span / 1000 ->
     (verifyRefreshToken process_env
        (refresh_token process_env u now1 span) now3 redis2).1 = Pending) /\
    (now3 / 1000 < now2 / 1000 + span / 1000 ->
     (verifyRefreshToken process_env
        (refresh_token process_env u now2 span) now3 redis2).1 = Pending) /\
    (forall token decoded redis',
        verifyRefreshToken process_env token now3 redis2
        <> (Settled (Return decoded), redis')).
Proof.
  intros Hspan. eexists _, _.
  split; [apply generateRefreshToken_pending, Hspan|].
  split; [apply generateRefreshToken_pending, Hspan|].
  split; [|split; [|split]].
  - intros Hup. unfold after_command. cbn. rewrite Hup. cbn.
    apply lookup_insert_eq.
  - intros Hexp.
    rewrite (verifyRefreshToken_fresh _ _ _ _ _ (refresh_token_fresh _ _ _ _ _ Hexp)).
    reflexivity.
  - intros Hexp.
    rewrite (verifyRefreshToken_fresh _ _ _ _ _ (refresh_token_fresh _ _ _ _ _ Hexp)).
    reflexivity.
  - intros token decoded redis'.
    match goal with |- verifyRefreshToken _ _ _ ?r <> _ =>
      destruct (verifyRefreshToken_cases process_env token now3 r)
        as [[-> _]|(d & _ & ->)]; discriminate
    end.
Qed.

(** C3.  [generateRefreshToken] never returns the token it signed.  It
    gives the client [SET refresh_token:<user id> <token>], with no
    expiry among the arguments, and stays pending.  With the store in
    reach the entry is written and never expires.  When the store
    rejects the write nothing is written, and the failure is not
    propagated: the call stays pending all the same, and the rejection
    is left unhandled. *)
Theorem generateRefreshToken_never_returns (u : user) (now : Z)
    (redis : Redis.client) :
  (forall token redis',
      generateRefreshToken process_env u now redis
      <> (Settled (Return token), redis')) /\
  (forall span,
      refresh_lifetime process_env = Some span ->
      exists redis',
        generateRefreshToken process_env u now redis = (Pending, redis') /\
        Redis.commands redis'
        = (Redis.commands redis
          ++ [["SET"; "refresh_token:" +:+ _id u;
               refresh_token process_env u now span]])%list /\
        match Redis.failure redis with
        | None =>
            Redis.data redis'
            = <["refresh_token:" +:+ _id u :=
                  {| Redis.value := refresh_token process_env u now span;
                     Redis.expireAt := None |}]> (Redis.data redis) /\
            Redis.unhandled redis' = Redis.unhandled redis
        | Some err =>
            Redis.data redis' = Redis.data redis /\
            Redis.unhandled redis' = (Redis.unhandled redis ++ [Lib "Error" err])%list
        end).
Proof.
  split.
  - intros token redis'.
    destruct (generateRefreshToken_cases process_env u now redis)
      as [[r ->]|[msg ->]]; discriminate.
  - intros span Hspan. rewrite (generateRefreshToken_pending _ _ _ _ _ Hspan).
    eexists. split; [reflexivity|]. split; [reflexivity|].
    unfold after_command. cbn.
    destruct (Redis.failure redis); cbn; rewrite ?app_nil_r; split; reflexivity.
Qed.

(** C5.  While the store rejects its commands, none of the three
    operations of the token service fails: verification of a token that
    passes the check of signature and expiry, issuance, and invalidation
    all stay pending, each leaving the store's rejection unhandled.  And
    whatever the store does, none of them ever throws an
    [InternalServerError]: verification throws nothing but the
    [UnauthorizedError] (status 401), issuance nothing but what
    [jwt.sign] throws, invalidation nothing. *)
Theorem store_failure_hangs (token userId : string) (u : user)
    (now span : Z) (redis : Redis.client) (err : string) :
  Redis.failure redis = Some err ->
  (forall decoded,
      signed_and_fresh token (refresh_secret process_env) now decoded ->
      exists redis',
        verifyRefreshToken process_env token now redis = (Pending, redis') /\
        Redis.unhandled redis' = (Redis.unhandled redis ++ [Lib "Error" err])%list) /\
  (refresh_lifetime process_env = Some span ->
   exists redis',
     generateRefreshToken process_env u now redis = (Pending, redis') /\
     Redis.unhandled redis' = (Redis.unhandled redis ++ [Lib "Error" err])%list) /\
  (exists redis',
     invalidateRefreshToken userId redis = (Pending, redis') /\
     Redis.unhandled redis' = (Redis.unhandled redis ++ [Lib "Error" err])%list) /\
  (forall e redis',
      verifyRefreshToken process_env token now redis = (Settled (Throw e), redis') ->
      e = token_expired) /\
  authentication_error token_expired /\
  (forall e redis',
      generateRefreshToken process_env u now redis = (Settled (Throw e), redis') ->
      exists msg, e = Lib "Error" msg) /\
  (forall r redis', invalidateRefreshToken userId redis <> (Settled r, redis')).
Proof.
  intros Hf.
  assert (Hun : forall args d,
             Redis.unhandled (after_command args d redis)
             = (Redis.unhandled redis ++ [Lib "Error" err])%list).
  { intros args d. unfold after_command. cbn. rewrite Hf. reflexivity. }
  split; [|split; [|split; [|split; [|split; [|split]]]]].
  - intros decoded Hfresh. rewrite (verifyRefreshToken_fresh _ _ _ _ _ Hfresh).
    eexists. split; [reflexivity|]. apply Hun.
  - intros Hspan. rewrite (generateRefreshToken_pending _ _ _ _ _ Hspan).
    eexists. split; [reflexivity|]. apply Hun.
  - rewrite invalidateRefreshToken_pending.
    eexists. split; [reflexivity|]. apply Hun.
  - intros e redis'.
    destruct (verifyRefreshToken_cases process_env token now redis)
      as [[-> _]|(d & _ & ->)]; [intros [= <- _]; reflexivity | discriminate].
  - eexists. repeat split.
  - intros e redis'.
    destruct (generateRefreshToken_cases process_env u now redis)
      as [[r ->]|[msg ->]]; [discriminate|]. intros [= <- _]. eauto.
  - intros r redis'. rewrite invalidateRefreshToken_pending. discriminate.
Qed.

(** C6.  An access token made by [generateAccessToken] is accepted by
    [verifyAccessToken] at every instant before its expiry, and the
    decoded claims carry the user's identifier (and username, email and
    role).  Neither function takes or returns the store. *)
Theorem access_token_roundtrip (u : user) (now now' span : Z) :
  ms (or_default (JWT_EXPIRES_IN process_env) "15m") = Some span ->
  now' / 1000 < now / 1000 + span / 1000 ->
  exists token decoded,
    generateAccessToken process_env u now = Return token /\
    verifyAccessToken process_env token now' = Return decoded /\
    body decoded !! "id" = Some (_id u) /\
    body decoded !! "username" = Some (username u) /\
    body decoded !! "email" = Some (email u) /\
    body decoded !! "role" = Some (role u) /\
    iat decoded = now / 1000.
Proof.
  intros Hspan Hexp. unfold generateAccessToken, Jwt.sign. rewrite Hspan.
  eexists _, _. split; [reflexivity|].
  unfold verifyAccessToken, Jwt.verify. rewrite jws_verify_sign. cbn [exp].
  destruct (Z.geb_spec (now' / 1000) (now / 1000 + span / 1000)); [lia|].
  split; [reflexivity|]. cbn [body iat].
  repeat split; by simplify_map_eq.
Qed.

(** C7.  [invalidateRefreshToken] never returns.  It gives the client
    [DEL refresh_token:<user id>] and stays pending, on every store; with
    the store in reach the entry is gone afterwards.  It does not throw,
    but verifying a refresh token of that user afterwards does not fail
    either: while the token passes the check of signature and expiry,
    verification stays pending. *)
Theorem invalidateRefreshToken_never_returns (userId : string)
    (redis : Redis.client) :
  exists redis',
    invalidateRefreshToken userId redis = (Pending, redis') /\
    Redis.commands redis'
    = (Redis.commands redis ++ [["DEL"; "refresh_token:" +:+ userId]])%list /\
    (Redis.failure redis = None ->
     Redis.data redis' = delete ("refresh_token:" +:+ userId) (Redis.data redis)) /\
    (forall token now decoded,
        signed_and_fresh token (refresh_secret process_env) now decoded ->
        (verifyRefreshToken process_env token now redis').1 = Pending) /\
    (forall u t span now,
        _id u = userId ->
        now / 1000 < t / 1000 + span / 1000 ->
        (verifyRefreshToken process_env
           (refresh_token process_env u t span) now redis').1 = Pending).
Proof.
  rewrite invalidateRefreshToken_pending. eexists.
  split; [reflexivity|]. split; [reflexivity|]. split; [|split].
  - intros Hup. unfold after_command. cbn. rewrite Hup. reflexivity.
  - intros token now decoded Hfresh.
    rewrite (verifyRefreshToken_fresh _ _ _ _ _ Hfresh). reflexivity.
  - intros u t span now _ Hexp.
    rewrite (verifyRefreshToken_fresh _ _ _ _ _ (refresh_token_fresh _ _ _ _ _ Hexp)).
    reflexivity.
Qed.

(** C8.  Without an [Authorization] header, or with [Bearer] followed
    by nothing, [authenticateToken] throws the [UnauthorizedError]
    "Access token is required".  With [Bearer <token>] it hands the
    token to [verifyAccessToken]: on success it calls [next()] with the
    decoded claims in [req.user], on failure it passes on the very error
    [verifyAccessToken] threw.  It never continues without an identity
    attached. *)
Theorem authenticateToken_guard (req : request) (now : Z) :
  (authorization req = None \/ authorization req = Some "Bearer " ->
   authenticateToken process_env req now = Thrown token_required) /\
  (forall token,
      authorization req = Some ("Bearer " +:+ token) ->
      truthy token = true -> has_char " " token = false ->
      authenticateToken process_env req now
      = match verifyAccessToken process_env token now with
        | Return decoded =>
            Next {| authorization := authorization req; req_user := Some decoded |}
        | Throw error => NextError error
        end) /\
  (forall req',
      authenticateToken process_env req now = Next req' ->
      exists token decoded,
        presented (authorization req) = Some token /\
        verifyAccessToken process_env token now = Return decoded /\
        req_user req' = Some decoded) /\
  (forall e,
      authenticateToken process_env req now = NextError e ->
      e = invalid_token /\
      exists token, presented (authorization req) = Some token /\
                    verifyAccessToken process_env token now = Throw e) /\
  (forall e,
      authenticateToken process_env req now = Thrown e ->
      e = token_required /\ presented (authorization req) = None) /\
  authentication_error token_required /\ authentication_error invalid_token.
Proof.
  rewrite authenticateToken_presented.
  split; [intros [-> | ->]; reflexivity|].
  split.
  { intros token -> Hne Hsp.
    change ("Bearer " +:+ token) with ("Bearer" +:+ " " +:+ token).
    rewrite (presented_scheme "Bearer" token) by (reflexivity || assumption).
    reflexivity. }
  assert (Hauth : authentication_error token_required /\
                  authentication_error invalid_token)
    by (split; eexists; repeat split).
  destruct (presented (authorization req)) as [token|].
  - destruct (verifyAccessToken_cases process_env token now) as [[d Hd]|Ht].
    + rewrite Hd.
      split; [intros r [= <-]; eauto|].
      split; [intros e [=]|]. split; [intros e [=]|]. exact Hauth.
    + rewrite Ht.
      split; [intros r [=]|].
      split; [intros e [= <-]; split; [reflexivity|eauto]|].
      split; [intros e [=]|]. exact Hauth.
  - split; [intros r [=]|]. split; [intros e [=]|].
    split; [intros e [= <-]; split; reflexivity|]. exact Hauth.
Qed.

(** C9.  [authenticateToken] never looks at the scheme: the token is
    the second piece of the header split at single spaces.  A header
    [<scheme> <token>], whatever the scheme, is accepted whenever the
    token verifies, and a header without a space is rejected with
    "Access token is required". *)
Theorem authenticateToken_ignores_scheme (now : Z) (user0 : option claims) :
  (forall header,
      authenticateToken process_env
        {| authorization := header; req_user := user0 |} now
      = match presented header with
        | Some token =>
            match verifyAccessToken process_env token now with
            | Return decoded =>
                Next {| authorization := header; req_user := Some decoded |}
            | Throw error => NextError error
            end
        | None => Thrown token_required
        end) /\
  (forall scheme token decoded,
      has_char " " scheme = false ->
      verifyAccessToken process_env token now = Return decoded ->
      authenticateToken process_env
        {| authorization := Some (scheme +:+ " " +:+ token); req_user := user0 |} now
      = Next {| authorization := Some (scheme +:+ " " +:+ token);
                req_user := Some decoded |}) /\
  (forall header,
      has_char " " header = false ->
      authenticateToken process_env
        {| authorization := Some header; req_user := user0 |} now
      = Thrown token_required).
Proof.
  split; [intros header; apply authenticateToken_presented|].
  split.
  - intros scheme token decoded Hs Hv. rewrite authenticateToken_presented.
    destruct (verifyAccessToken_shape _ _ _ _ Hv) as [Hne Hsp].
    cbn [authorization]. rewrite presented_scheme, Hv by assumption. reflexivity.
  - intros header Hh. rewrite authenticateToken_presented.
    cbn [authorization]. rewrite presented_single by assumption. reflexivity.
Qed.

End Claims.

(** C10.  Neither [getProfile] nor the [GET /profile] handler returns a
    [password] field, and their results do not depend on the stored
    hash: users, or user collections, that differ in password hashes only
    give the same output. *)
Theorem profile_hides_password (u : user) (pw : string)
    (users1 users2 : gmap string user) (req : request) :
  field "password" (getProfile u) = None /\
  getProfile (with_password u pw) = getProfile u /\
  (same_but_passwords users1 users2 ->
   Routes.profile users1 req = Routes.profile users2 req) /\
  (forall out fields,
      Routes.profile users1 req = Return out ->
      field "user" out = Some (JObject fields) ->
      field "password" fields = None).
Proof.
  split; [reflexivity|]. split; [reflexivity|]. split.
  - intros Hsame. unfold Routes.profile.
    destruct (req_user req) as [decoded|]; [|reflexivity].
    destruct (body decoded !! "id") as [id|]; [|reflexivity]. cbn.
    specialize (Hsame id).
    destruct (users1 !! id) as [u1|], (users2 !! id) as [u2|];
      try discriminate; [|reflexivity].
    injection Hsame as Hid Hname Hmail Hfirst Hlast Hrole _ _ Hcreated Hlogin.
    rewrite Hid, Hname, Hmail, Hfirst, Hlast, Hrole, Hcreated, Hlogin. reflexivity.
  - intros out fields. unfold Routes.profile.
    destruct (req_user req) as [decoded|]; [|discriminate].
    destruct (body decoded !! "id" ≫= (users1 !!.)); [|discriminate].
    intros [= <-]. cbn. intros [= <-]. reflexivity.
Qed.

(** C4.  A request whose attached role is not among the allowed ones is
    turned away by [authorizeRoles] with an [UnauthorizedError], status
    401, and not with the [ForbiddenError] (403) class: here [alice],
    whose role is [user], at a gate for [admin].  A request without an
    identity gets the 401 class too, and no input makes the gate throw
    anything else. *)
Theorem authorizeRoles_insufficient_role_is_401 :
  authorizeRoles ["admin"] alice_request = Thrown no_permission /\
  (exists a, no_permission = App a /\ cls a = UnauthorizedError /\
             statusCode a = 401) /\
  authorizeRoles ["admin"] {| authorization := None; req_user := None |}
  = Thrown login_first /\
  (forall roles req e,
      authorizeRoles roles req = Thrown e -> authentication_error e).
Proof.
  split; [vm_compute; reflexivity|]. split; [eexists; repeat split|].
  split; [reflexivity|].
  intros roles req e. unfold authorizeRoles.
  destruct (req_user req) as [u|].
  - destruct (includes roles (body u !! "role")); [discriminate|].
    intros [= <-]. eexists. repeat split.
  - intros [= <-]. eexists. repeat split.
Qed.

(** With the reference implementation, a token signed under another key
    is rejected even when the store holds it for the user it names. *)
Example wrong_secret_rejected :
  verifyRefreshToken env0
    (jws_sign (refresh_claims alice 1000 604800000) "guess") 2000
    {| Redis.failure := None;
       Redis.data :=
         {[ "refresh_token:65f1c0ffee" :=
              refresh_entry (jws_sign (refresh_claims alice 1000 604800000) "guess") ]};
       Redis.commands := []; Redis.unhandled := [] |}
  = (Settled (Throw token_expired),
     {| Redis.failure := None;
        Redis.data :=
          {[ "refresh_token:65f1c0ffee" :=
               refresh_entry (jws_sign (refresh_claims alice 1000 604800000) "guess") ]};
        Redis.commands := []; Redis.unhandled := [] |}).
Proof. vm_compute. reflexivity. Qed.

(** C1, as stated, fails: the refresh token signed for [alice] at 1000
    ms passes the check of signature and expiry at 2000 ms, and the
    store holds exactly this token under her key; yet its verification
    returns no claims: it stays pending. *)
Lemma stored_token_pending_counterexample :
  signed_and_fresh (refresh_token env0 alice 1000 604800000)
    (refresh_secret env0) 2000 (refresh_claims alice 1000 604800000) /\
  store_holds redis_alice "refresh_token:65f1c0ffee" 2000
    (refresh_token env0 alice 1000 604800000) /\
  (verifyRefreshToken env0 (refresh_token env0 alice 1000 604800000) 2000
     redis_alice).1 = Pending.
Proof.
  split; [|split].
  - split; [vm_compute; reflexivity|]. intros e [= <-]. reflexivity.
  - split; [reflexivity|]. eexists. split; [apply lookup_singleton_eq|].
    split; reflexivity.
  - vm_compute. reflexivity.
Qed.

(** C2, as stated, fails: after issuances for [alice] at 1000 ms and
    2000 ms on an empty store, verification at 3000 ms rejects neither
    token and accepts neither: for both it stays pending. *)
Lemma reissue_pending_counterexample :
  (generateRefreshToken env0 alice 1000 redis0).1 = Pending /\
  (generateRefreshToken env0 alice 2000
     (generateRefreshToken env0 alice 1000 redis0).2).1 = Pending /\
  (verifyRefreshToken env0 (refresh_token env0 alice 1000 604800000) 3000
     (generateRefreshToken env0 alice 2000
        (generateRefreshToken env0 alice 1000 redis0).2).2).1 = Pending /\
  (verifyRefreshToken env0 (refresh_token env0 alice 2000 604800000) 3000
     (generateRefreshToken env0 alice 2000
        (generateRefreshToken env0 alice 1000 redis0).2).2).1 = Pending.
Proof. repeat split; vm_compute; reflexivity. Qed.

(** Issuances at 1000 ms and 2000 ms on an empty store, checked at
    3000 ms under the default configuration. *)
Lemma refresh_reissue_never_settles_witness :
  exists redis1 redis2,
    generateRefreshToken env0 alice 1000 redis0 = (Pending, redis1) /\
    generateRefreshToken env0 alice 2000 redis1 = (Pending, redis2) /\
    Redis.data redis2 !! "refresh_token:65f1c0ffee"
    = Some {| Redis.value := refresh_token env0 alice 2000 604800000;
              Redis.expireAt := None |} /\
    (verifyRefreshToken env0 (refresh_token env0 alice 1000 604800000) 3000
       redis2).1 = Pending.
Proof.
  destruct (refresh_reissue_never_settles env0 alice 1000 2000 3000 604800000 redis0)
    as (redis1 & redis2 & Hone & Htwo & Hdata & Hfirst & _);
    [reflexivity|].
  exists redis1, redis2. split; [exact Hone|]. split; [exact Htwo|].
  split; [exact (Hdata eq_refl) | apply Hfirst; reflexivity].
Defined.

(** C3, as stated, fails: an issuance for [alice] at 1000 ms on an
    empty store writes an entry that has no time-to-live, and returns no
    token; on a store that rejects the write the call does not fail, it
    stays pending. *)
Lemma refresh_no_ttl_counterexample :
  (generateRefreshToken env0 alice 1000 redis0).1 = Pending /\
  Redis.data (generateRefreshToken env0 alice 1000 redis0).2
    !! "refresh_token:65f1c0ffee"
  = Some {| Redis.value := refresh_token env0 alice 1000 604800000;
            Redis.expireAt := None |} /\
  Redis.commands (generateRefreshToken env0 alice 1000 redis0).2
  = [["SET"; "refresh_token:65f1c0ffee"; refresh_token env0 alice 1000 604800000]] /\
  (generateRefreshToken env0 alice 1000 redis_down).1 = Pending.
Proof. repeat split; vm_compute; reflexivity. Qed.

(** An issuance at 1000 ms on an empty store under the default
    configuration. *)
Lemma generateRefreshToken_never_returns_witness :
  exists redis',
    generateRefreshToken env0 alice 1000 redis0 = (Pending, redis') /\
    Redis.commands redis'
    = (Redis.commands redis0
      ++ [["SET"; "refresh_token:" +:+ _id alice;
           refresh_token env0 alice 1000 604800000]])%list /\
    Redis.data redis'
    = <["refresh_token:" +:+ _id alice :=
          {| Redis.value := refresh_token env0 alice 1000 604800000;
             Redis.expireAt := None |}]> (Redis.data redis0) /\
    Redis.unhandled redis' = Redis.unhandled redis0.
Proof.
  apply (proj2 (generateRefreshToken_never_returns env0 alice 1000 redis0)
           604800000).
  reflexivity.
Defined.

(** C5, as stated, fails: with the store out of reach, verification of
    the token stored for [alice] fails with no error at all, neither an
    [InternalServerError] nor any other: it stays pending, and the
    store's error is left as an unhandled rejection. *)
Lemma store_down_pending_counterexample :
  (verifyRefreshToken env0 (refresh_token env0 alice 1000 604800000) 2000
     redis_down).1 = Pending /\
  Redis.unhandled
    (verifyRefreshToken env0 (refresh_token env0 alice 1000 604800000) 2000
       redis_down).2
  = [Lib "Error" "connect ECONNREFUSED 127.0.0.1:6379"].
Proof. split; vm_compute; reflexivity. Qed.

(** The three operations against a store that refuses connections. *)
Lemma store_failure_hangs_witness :
  (exists redis',
     verifyRefreshToken env0 (refresh_token env0 alice 1000 604800000) 2000
       redis_down = (Pending, redis') /\
     Redis.unhandled redis'
     = (Redis.unhandled redis_down
       ++ [Lib "Error" "connect ECONNREFUSED 127.0.0.1:6379"])%list) /\
  (exists redis',
     generateRefreshToken env0 alice 2000 redis_down = (Pending, redis') /\
     Redis.unhandled redis'
     = (Redis.unhandled redis_down
       ++ [Lib "Error" "connect ECONNREFUSED 127.0.0.1:6379"])%list) /\
  (exists redis',
     invalidateRefreshToken "65f1c0ffee" redis_down = (Pending, redis') /\
     Redis.unhandled redis'
     = (Redis.unhandled redis_down
       ++ [Lib "Error" "connect ECONNREFUSED 127.0.0.1:6379"])%list).
Proof.
  destruct (store_failure_hangs env0 (refresh_token env0 alice 1000 604800000)
              "65f1c0ffee" alice 2000 604800000 redis_down
              "connect ECONNREFUSED 127.0.0.1:6379" eq_refl)
    as (Hverify & Hissue & Hdel & _).
  split; [|split; [|exact Hdel]].
  - apply (Hverify (refresh_claims alice 1000 604800000)).
    split; [vm_compute; reflexivity|]. intros e [= <-]. reflexivity.
  - apply Hissue. reflexivity.
Defined.

(** C7, as stated, fails: invalidation for [alice] on a store that
    holds her token does not return, and a later verification of that
    token does not fail with the [UnauthorizedError]: it stays
    pending. *)
Lemma invalidate_pending_counterexample :
  (invalidateRefreshToken "65f1c0ffee" redis_alice).1 = Pending /\
  Redis.data (invalidateRefreshToken "65f1c0ffee" redis_alice).2
    !! "refresh_token:65f1c0ffee" = None /\
  (verifyRefreshToken env0 (refresh_token env0 alice 1000 604800000) 2000
     (invalidateRefreshToken "65f1c0ffee" redis_alice).2).1 = Pending.
Proof. repeat split; vm_compute; reflexivity. Qed.

(** An access token made at 1000 ms and checked at 2000 ms under the
    default configuration. *)
Lemma access_token_roundtrip_witness :
  exists token decoded,
    generateAccessToken env0 alice 1000 = Return token /\
    verifyAccessToken env0 token 2000 = Return decoded /\
    body decoded !! "id" = Some (_id alice) /\
    body decoded !! "username" = Some (username alice) /\
    body decoded !! "email" = Some (email alice) /\
    body decoded !! "role" = Some (role alice) /\
    iat decoded = 1000 / 1000.
Proof.
  apply (access_token_roundtrip env0 alice 1000 2000 900000); reflexivity.
Defined.

(** A request with [Authorization: Bearer <access token>] passes the
    guard with the token's claims attached. *)
Lemma authenticateToken_guard_witness :
  exists token decoded,
    generateAccessToken env0 alice 1000 = Return token /\
    verifyAccessToken env0 token 2000 = Return decoded /\
    authenticateToken env0
      {| authorization := Some ("Bearer " +:+ token); req_user := None |} 2000
    = Next {| authorization := Some ("Bearer " +:+ token);
              req_user := Some decoded |}.
Proof.
  eexists _, _.
  split; [vm_compute; reflexivity|]. split; [vm_compute; reflexivity|].
  etransitivity.
  - apply (proj1 (proj2 (authenticateToken_guard env0
             {| authorization := Some ("Bearer " +:+ _); req_user := None |} 2000)));
      [reflexivity | reflexivity | vm_compute; reflexivity].
  - vm_compute; reflexivity.
Defined.

(** The same token behind the scheme word [Basic] passes as well. *)
Lemma authenticateToken_ignores_scheme_witness :
  exists token decoded,
    generateAccessToken env0 alice 1000 = Return token /\
    authenticateToken env0
      {| authorization := Some ("Basic" +:+ " " +:+ token); req_user := None |} 2000
    = Next {| authorization := Some ("Basic" +:+ " " +:+ token);
              req_user := Some decoded |}.
Proof.
  eexists _, _. split; [vm_compute; reflexivity|].
  apply (proj1 (proj2 (authenticateToken_ignores_scheme env0 2000 None)));
    [reflexivity | vm_compute; reflexivity].
Defined.

(** Changing [alice]'s stored hash changes nothing in the response to
    her own profile request. *)
Lemma profile_hides_password_witness :
  Routes.profile {[ _id alice := alice ]} alice_request
  = Routes.profile {[ _id alice := with_password alice "$2b$10$other" ]}
      alice_request.
Proof.
  apply (proj1 (proj2 (proj2 (profile_hides_password alice ""
           {[ _id alice := alice ]}
           {[ _id alice := with_password alice "$2b$10$other" ]}
           alice_request)))).
  intros id. destruct (decide (id = _id alice)) as [->|Hne].
  - rewrite !lookup_singleton_eq. reflexivity.
  - rewrite !lookup_singleton_ne by congruence. reflexivity.
Defined.

(** * Further properties *)

(** ** The error middleware *)

Section ErrorHandlerFacts.
Import ErrorHandler.

(** X1.  An error of one of the application's classes, thrown with a
    non-empty message, is answered with the status of its class and its
    two messages in [error] and [error_en]; outside development there is
    no stack, and [message] / [message_en] repeat the messages unless
    the status is 500, where they are the "contact support" texts. *)
Theorem app_error_response (NODE_ENV : option string) (stack_ : string)
    (c : error_class) (msg en : string) :
  truthy msg = true ->
  exists body,
    errorHandlerMiddleware NODE_ENV (of_exn stack_ (App (new c msg en)))
    = Return (status_of c, body) /\
    status body = "error" /\
    error body = msg /\
    error_en body = (if truthy en then en else msg) /\
    validationErrors body = None /\
    (development NODE_ENV = false ->
     stack body = None /\
     message body = (if status_of c =? 500
                     then "لطفا با پشتیبانی تماس بگیرید" else msg) /\
     message_en body = (if status_of c =? 500
                        then "Please contact support"
                        else if truthy en then en else msg)).
Proof.
  intros Hmsg. unfold errorHandlerMiddleware, of_exn, new.
  cbn [err_statusCode err_name err_errors err_code err_keyValue err_message
       err_errorEn err_stack err_validationErrors Errors.message statusCode errorEn].
  rewrite Hmsg.
  replace (match NODE_ENV with Some v => String.eqb v "development" | None => false end)
    with (development NODE_ENV) by reflexivity.
  destruct (development NODE_ENV), c, (truthy en) eqn:Hen;
    cbn; eexists; repeat split; try discriminate; try (intros _; repeat split);
    cbn; rewrite ?Hen, ?Hmsg; reflexivity.
Qed.

(** X2.  Whenever the error middleware answers, the body carries the
    error's stack exactly when [NODE_ENV] is [development]. *)
Theorem stack_only_in_development (NODE_ENV : option string) (err : error_object)
    (statusCode : Z) (body : errorResponse) :
  errorHandlerMiddleware NODE_ENV err = Return (statusCode, body) ->
  stack body = (if development NODE_ENV then Some (err_stack err) else None).
Proof.
  unfold errorHandlerMiddleware.
  replace (match NODE_ENV with Some v => String.eqb v "development" | None => false end)
    with (development NODE_ENV) by reflexivity.
  destruct (String.eqb (err_name err) "ValidationError");
    [destruct (err_errors err); [|discriminate]|];
    (destruct (bool_decide (err_code err = Some 11000));
       [destruct (err_keyValue err); [|discriminate]|]);
    destruct (String.eqb (err_name err) "JsonWebTokenError"),
             (String.eqb (err_name err) "TokenExpiredError");
    intros [= <- <-]; reflexivity.
Qed.

(** X3.  Outside development, an error without a status of its own,
    without code 11000 and with a name other than [ValidationError],
    [JsonWebTokenError] and [TokenExpiredError], as a dependency raises
    it, is answered with status 500 and the "contact support" texts, but
    its raw message is sent in the [error] field. *)
Theorem dependency_error_response (NODE_ENV : option string) (err : error_object) :
  err_statusCode err = None ->
  special_name (err_name err) = false ->
  err_code err <> Some 11000 ->
  truthy (err_message err) = true ->
  development NODE_ENV = false ->
  errorHandlerMiddleware NODE_ENV err
  = Return (500,
            {| status := "error"; error := err_message err;
               error_en := or_default (err_errorEn err)
                             "An error occurred on the server";
               message := "لطفا با پشتیبانی تماس بگیرید";
               message_en := "Please contact support";
               stack := None; validationErrors := err_validationErrors err |}).
Proof.
  unfold special_name.
  intros Hstatus [[Hv Hj]%orb_false_elim Ht]%orb_false_elim Hcode Hmsg Hdev.
  unfold errorHandlerMiddleware.
  replace (match NODE_ENV with Some v => String.eqb v "development" | None => false end)
    with (development NODE_ENV) by reflexivity.
  rewrite Hstatus, Hv, Hj, Ht, Hmsg, Hdev, (bool_decide_eq_false_2 _ Hcode).
  reflexivity.
Qed.

(** X4.  An error named [JsonWebTokenError] or [TokenExpiredError] is
    answered with status 401 and fixed texts, whatever status and
    message it carries itself. *)
Theorem jwt_error_response (NODE_ENV : option string) (err : error_object)
    (statusCode : Z) (body : errorResponse) :
  err_name err = "JsonWebTokenError" \/ err_name err = "TokenExpiredError" ->
  errorHandlerMiddleware NODE_ENV err = Return (statusCode, body) ->
  statusCode = 401 /\
  error_en body = (if String.eqb (err_name err) "TokenExpiredError"
                   then "Token expired" else "Invalid token") /\
  message body = "لطفا دوباره وارد شوید" /\
  message_en body = "Please login again".
Proof.
  intros Hname. unfold errorHandlerMiddleware.
  destruct Hname as [-> | ->]; cbn [String.eqb Ascii.eqb Bool.eqb];
    (destruct (bool_decide (err_code err = Some 11000));
       [destruct (err_keyValue err); [|discriminate]|]);
    intros [= <- <-]; repeat split.
Qed.

(** X5.  The error middleware itself throws a [TypeError] exactly
    when the error is named [ValidationError] without an [errors] map,
    or has code 11000 without [keyValue]; in every other case it
    answers.  So it answers every error that is neither named
    [ValidationError] nor has code 11000. *)
Theorem errorHandlerMiddleware_throws (NODE_ENV : option string)
    (err : error_object) :
  (errorHandlerMiddleware NODE_ENV err = Throw type_error <->
   (err_name err = "ValidationError" /\ err_errors err = None) \/
   (err_code err = Some 11000 /\ err_keyValue err = None)) /\
  ((exists response, errorHandlerMiddleware NODE_ENV err = Return response) \/
   errorHandlerMiddleware NODE_ENV err = Throw type_error) /\
  (err_name err <> "ValidationError" ->
   err_code err <> Some 11000 ->
   exists response, errorHandlerMiddleware NODE_ENV err = Return response).
Proof.
  assert (Hiff : errorHandlerMiddleware NODE_ENV err = Throw type_error <->
                 (err_name err = "ValidationError" /\ err_errors err = None) \/
                 (err_code err = Some 11000 /\ err_keyValue err = None)).
  { unfold errorHandlerMiddleware.
    destruct (String.eqb_spec (err_name err) "ValidationError") as [Hn|Hn];
      destruct (err_errors err) as [errors|] eqn:He;
      (destruct (decide (err_code err = Some 11000)) as [Hc|Hc];
       [rewrite ?(bool_decide_eq_true_2 _ Hc)
       |rewrite ?(bool_decide_eq_false_2 _ Hc)]);
      destruct (err_keyValue err) as [keys|] eqn:Hk;
      destruct (String.eqb (err_name err) "JsonWebTokenError"),
               (String.eqb (err_name err) "TokenExpiredError");
      (split;
       [ intros Heq; try discriminate Heq;
         first [left; split; congruence | right; split; congruence]
       | intros [[? ?]|[? ?]]; first [reflexivity | congruence] ]). }
  assert (Hcases :
            (exists response, errorHandlerMiddleware NODE_ENV err = Return response) \/
            errorHandlerMiddleware NODE_ENV err = Throw type_error).
  { unfold errorHandlerMiddleware.
    destruct (String.eqb (err_name err) "ValidationError");
      [destruct (err_errors err); [|right; reflexivity]|];
      (case_bool_decide;
         [destruct (err_keyValue err); [|right; reflexivity]|]);
      destruct (String.eqb (err_name err) "JsonWebTokenError"),
               (String.eqb (err_name err) "TokenExpiredError");
      left; eexists; reflexivity. }
  split; [exact Hiff|]. split; [exact Hcases|].
  intros Hname Hcode. destruct Hcases as [Hanswer|Hthrow]; [exact Hanswer|].
  apply Hiff in Hthrow as [[Hn _]|[Hc _]]; contradiction.
Qed.

Lemma map_pair_id {A B} (l : list (A * B)) : map (fun e => (e.1, e.2)) l = l.
Proof. induction l as [|[a b] l IH]; cbn; [|rewrite IH]; reflexivity. Qed.

(** X6.  [validate] passes a request without validation errors on; one
    with errors is answered, through the error middleware, with status
    422, "Invalid input data" and one entry per validation error, in
    order. *)
Theorem validate_response (NODE_ENV : option string) (stack_ : string)
    (errors : list (string * string)) :
  (validate stack_ errors = None <-> errors = []) /\
  (errors <> [] ->
   exists err body,
     validate stack_ errors = Some err /\
     errorHandlerMiddleware NODE_ENV err = Return (422, body) /\
     error_en body = "Invalid input data" /\
     validationErrors body = Some errors).
Proof.
  split.
  - destruct errors; split; (reflexivity || discriminate).
  - intros Hne. destruct errors as [|e errors]; [contradiction|].
    unfold validate. rewrite map_pair_id.
    destruct (development NODE_ENV) eqn:Hdev;
      (eexists _, _; split; [reflexivity|]);
      unfold errorHandlerMiddleware;
      replace (match NODE_ENV with
               | Some v => String.eqb v "development"
               | None => false
               end) with (development NODE_ENV) by reflexivity;
      rewrite Hdev; cbn; repeat split.
Qed.

End ErrorHandlerFacts.

(** ** The token service *)

Section TokenServiceMore.
Context `{JwtLib}.
Variable process_env : env.

(** X7.  What [verifyRefreshToken] answers does not depend on the
    store: on any two clients, whatever they hold and whether or not
    they reach the server, its promise ends the same way; and it changes
    no key. *)
Theorem verifyRefreshToken_ignores_store (token : string) (now : Z)
    (redis1 redis2 : Redis.client) :
  (verifyRefreshToken process_env token now redis1).1
  = (verifyRefreshToken process_env token now redis2).1 /\
  Redis.data (verifyRefreshToken process_env token now redis1).2
  = Redis.data redis1.
Proof.
  destruct (Jwt.verify token (refresh_secret process_env) now) as [d|e] eqn:Hv.
  - apply verify_Return in Hv.
    rewrite !(verifyRefreshToken_fresh _ _ _ _ _ Hv). split; [reflexivity|].
    unfold after_command. cbn. destruct (Redis.failure redis1); reflexivity.
  - assert (Hbad : forall decoded,
      ~ signed_and_fresh token (refresh_secret process_env) now decoded).
    { intros d Hd%verify_Return. congruence. }
    rewrite !(verifyRefreshToken_stale _ _ _ _ Hbad). split; reflexivity.
Qed.

(** X8.  Issuing a refresh token to one user, or invalidating that
    user's token, leaves the store entry of every other user as it
    was. *)
Theorem other_users_unaffected (u v : user) (now : Z) (redis : Redis.client) :
  _id v <> _id u ->
  Redis.data (generateRefreshToken process_env u now redis).2
    !! ("refresh_token:" +:+ _id v)
  = Redis.data redis !! ("refresh_token:" +:+ _id v) /\
  Redis.data (invalidateRefreshToken (_id u) redis).2
    !! ("refresh_token:" +:+ _id v)
  = Redis.data redis !! ("refresh_token:" +:+ _id v).
Proof.
  intros Hother.
  assert (Hkey : tokenKey (_id u) <> "refresh_token:" +:+ _id v).
  { change ("refresh_token:" +:+ _id v) with (tokenKey (_id v)).
    intros Heq%tokenKey_inj. congruence. }
  split.
  - destruct (refresh_lifetime process_env) as [span|] eqn:Hspan.
    + rewrite (generateRefreshToken_pending _ _ _ _ _ Hspan).
      unfold after_command. cbn. destruct (Redis.failure redis); [reflexivity|].
      apply lookup_insert_ne. exact Hkey.
    + unfold refresh_lifetime in Hspan.
      unfold generateRefreshToken, Jwt.sign. rewrite Hspan. reflexivity.
  - rewrite invalidateRefreshToken_pending. unfold after_command. cbn.
    destruct (Redis.failure redis); [reflexivity|].
    apply lookup_delete_ne. exact Hkey.
Qed.

(** X9.  [verifyAccessToken] does not look at the [type] claim: when
    both secrets are configured equal, an unexpired refresh token passes
    [authenticateToken] as an access token.  Its claims carry no role,
    so every role gate turns it away. *)
Theorem refresh_token_as_access_token (u : user) (t0 now span : Z) :
  access_secret process_env = refresh_secret process_env ->
  refresh_lifetime process_env = Some span ->
  now / 1000 < t0 / 1000 + span / 1000 ->
  let header := "Bearer " +:+ refresh_token process_env u t0 span in
  authenticateToken process_env
    {| authorization := Some header; req_user := None |} now
  = Next {| authorization := Some header;
            req_user := Some (refresh_claims u t0 span) |} /\
  body (refresh_claims u t0 span) !! "type" = Some "refresh" /\
  forall roles,
    authorizeRoles roles
      {| authorization := Some header;
         req_user := Some (refresh_claims u t0 span) |}
    = Thrown no_permission.
Proof.
  intros Hsecret Hspan Hexp header.
  assert (Hv : verifyAccessToken process_env (refresh_token process_env u t0 span) now
               = Return (refresh_claims u t0 span)).
  { unfold verifyAccessToken, Jwt.verify, refresh_token. rewrite Hsecret.
    rewrite jws_verify_sign. cbn [exp refresh_claims].
    destruct (Z.geb_spec (now / 1000) (t0 / 1000 + span / 1000)); [lia|reflexivity]. }
  destruct (verifyAccessToken_shape _ _ _ _ Hv) as [Hne Hsp].
  split; [|split].
  - rewrite authenticateToken_presented. cbn [authorization]. subst header.
    change ("Bearer " +:+ refresh_token process_env u t0 span)
      with ("Bearer" +:+ " " +:+ refresh_token process_env u t0 span).
    rewrite presented_scheme, Hv by (reflexivity || assumption). reflexivity.
  - cbn. rewrite lookup_insert_ne by discriminate. apply lookup_insert_eq.
  - intros roles. unfold authorizeRoles. cbn [req_user].
    replace (body (refresh_claims u t0 span) !! "role") with (@None string);
      [reflexivity|].
    cbn. rewrite !lookup_insert_ne by discriminate. reflexivity.
Qed.

End TokenServiceMore.

(** ** The routes of routes/auth.js *)

Section CollectionFacts.
Import AuthRoutes.

Lemma findOne_Some (filter : user -> bool) (collection : gmap string user) u :
  findOne filter collection = Some u ->
  filter u = true /\ exists k, collection !! k = Some u.
Proof.
  unfold findOne. destruct (List.find _ _) as [[k u']|] eqn:Hfind; [|discriminate].
  cbn. intros [= <-]. apply find_some in Hfind as [Hin Hf].
  split; [exact Hf|]. exists k. apply elem_of_map_to_list, list_elem_of_In, Hin.
Qed.

Lemma findOne_None (filter : user -> bool) (collection : gmap string user) :
  findOne filter collection = None ->
  forall k u, collection !! k = Some u -> filter u = false.
Proof.
  unfold findOne. destruct (List.find _ _) as [[k u']|] eqn:Hfind; [discriminate|].
  intros _ k u Hk.
  apply (find_none _ _ Hfind (k, u)), list_elem_of_In, elem_of_map_to_list, Hk.
Qed.

Lemma names_filter (cast_username cast_email : string -> string) u name :
  String.eqb (username u) (cast_username name)
  || String.eqb (email u) (cast_email name) = true
  <-> names cast_username cast_email u name.
Proof.
  unfold names. rewrite orb_true_iff, !String.eqb_eq. reflexivity.
Qed.

End CollectionFacts.

Section RouteFacts.
Import AuthRoutes ErrorHandler.
Context `{JwtLib}.
Variable process_env : env.
Variable bcrypt_compare : string -> string -> bool.
Variable bcrypt_hash : string -> string -> string.
Variable cast_username : string -> string.
Variable cast_email : string -> string.

(** What the guard can end in. *)
Lemma authenticateToken_ends req now :
  (exists token decoded,
      presented (authorization req) = Some token /\
      verifyAccessToken process_env token now = Return decoded /\
      authenticateToken process_env req now
      = Next {| authorization := authorization req; req_user := Some decoded |})
  \/ authenticateToken process_env req now = NextError invalid_token
  \/ authenticateToken process_env req now = Thrown token_required.
Proof.
  rewrite authenticateToken_presented.
  destruct (presented (authorization req)) as [token|]; [|auto].
  destruct (verifyAccessToken_cases process_env token now) as [[d Hd]|Ht].
  - left. exists token, d. rewrite Hd. auto.
  - rewrite Ht. auto.
Qed.

(** X10.  [POST /login] fails with one and the same
    [UnauthorizedError] and changes neither store when no user has the
    name, as the query casts it, for username or email, or when the
    password does not compare for the users that have it; it ends in any
    other way only for a stored user with that username or email whose
    stored hash compares with the password. *)
Theorem login_rejects_uniformly (name pw : string) (now : Z) (w : world) :
  ((forall k u, users w !! k = Some u -> names cast_username cast_email u name ->
                bcrypt_compare pw (password u) = false) ->
   login process_env bcrypt_compare bcrypt_hash cast_username cast_email
     name pw now w
   = (Settled (Throw invalid_credentials), w)) /\
  (forall result w',
      login process_env bcrypt_compare bcrypt_hash cast_username cast_email
        name pw now w = (result, w') ->
      result <> Settled (Throw invalid_credentials) ->
      exists k u, users w !! k = Some u /\
                  names cast_username cast_email u name /\
                  bcrypt_compare pw (password u) = true).
Proof.
  split.
  - intros Hall. unfold login.
    destruct (findOne _ (users w)) as [u|] eqn:Hfind; [|reflexivity].
    apply findOne_Some in Hfind as [Hf [k Hk]]. apply names_filter in Hf.
    unfold comparePassword. rewrite (Hall k u Hk Hf). reflexivity.
  - intros result w'. unfold login.
    destruct (findOne _ (users w)) as [u|] eqn:Hfind;
      [|intros [= <- _] Hne; destruct Hne; reflexivity].
    apply findOne_Some in Hfind as [Hf [k Hk]]. apply names_filter in Hf.
    unfold comparePassword.
    destruct (bcrypt_compare pw (password u)) eqn:Hc;
      [|intros [= <- _] Hne; destruct Hne; reflexivity].
    intros _ _. eauto.
Qed.

(** X11.  [POST /login] never answers with success.  For the one user
    who has the name, with the right password, the login time is saved
    in the user document, the access token is signed, the client of the
    store is given the [SET] of the refresh token, and the handler stays
    pending: the request gets no response. *)
Theorem login_never_answers (name pw : string) (now : Z) (w : world) :
  (forall body w',
      login process_env bcrypt_compare bcrypt_hash cast_username cast_email
        name pw now w
      <> (Settled (Return body), w')) /\
  (forall u access_span refresh_span,
      (exists k, users w !! k = Some u) ->
      names cast_username cast_email u name ->
      (forall k u', users w !! k = Some u' ->
                    names cast_username cast_email u' name -> u' = u) ->
      bcrypt_compare pw (password u) = true ->
      ms (or_default (JWT_EXPIRES_IN process_env) "15m") = Some access_span ->
      refresh_lifetime process_env = Some refresh_span ->
      exists w',
        login process_env bcrypt_compare bcrypt_hash cast_username cast_email
          name pw now w = (Pending, w') /\
        users w' = <[_id u := set_lastLogin u now]> (users w) /\
        Redis.commands (redis w')
        = (Redis.commands (redis w)
           ++ [["SET"; "refresh_token:" +:+ _id u;
                refresh_token process_env u now refresh_span]])%list /\
        (Redis.failure (redis w) = None ->
         Redis.data (redis w') !! ("refresh_token:" +:+ _id u)
         = Some {| Redis.value := refresh_token process_env u now refresh_span;
                   Redis.expireAt := None |}) /\
        forall NODE_ENV stack_,
          respond NODE_ENV stack_
            (login process_env bcrypt_compare bcrypt_hash cast_username cast_email
               name pw now w).1 = NoResponse).
Proof.
  split.
  - intros body w'. unfold login.
    destruct (findOne _ (users w)) as [u|]; [|discriminate].
    destruct (negb (comparePassword bcrypt_compare u pw)); [discriminate|].
    destruct (generateAccessToken process_env (set_lastLogin u now) now);
      [|discriminate].
    destruct (generateRefreshToken_cases process_env (set_lastLogin u now) now
                (redis w)) as [[r ->]|[msg ->]]; discriminate.
  - intros u access_span refresh_span [k Hk] Hname Huniq Hpw Haccess Hrefresh.
    assert (Hlogin :
      login process_env bcrypt_compare bcrypt_hash cast_username cast_email
        name pw now w
      = (Pending,
         {| users := <[_id u := set_lastLogin u now]> (users w);
            redis :=
              after_command
                ["SET"; tokenKey (_id u); refresh_token process_env u now refresh_span]
                (<[tokenKey (_id u) :=
                     refresh_entry (refresh_token process_env u now refresh_span)]>
                   (Redis.data (redis w))) (redis w) |})).
    { unfold login.
      destruct (findOne _ (users w)) as [u'|] eqn:Hfind.
      2:{ apply findOne_None with (k := k) (u := u) in Hfind; [|exact Hk].
          apply names_filter in Hname. congruence. }
      apply findOne_Some in Hfind as [Hfl [k' Hk']]. apply names_filter in Hfl.
      rewrite (Huniq k' u' Hk' Hfl). clear u' k' Hk' Hfl.
      unfold comparePassword. rewrite Hpw. cbn [negb].
      unfold generateAccessToken, Jwt.sign. rewrite Haccess.
      rewrite (generateRefreshToken_pending process_env (set_lastLogin u now) now
                 (redis w) refresh_span Hrefresh).
      reflexivity. }
    rewrite Hlogin. eexists. split; [reflexivity|]. cbn [users redis fst].
    split; [reflexivity|]. split; [reflexivity|]. split; [|reflexivity].
    intros Hup. unfold after_command. cbn. rewrite Hup. apply lookup_insert_eq.
Qed.

(** X12.  [POST /refresh-token] has three outcomes and no more: an
    empty token gives the [BadRequestError]; a token that fails the
    check of signature and expiry gives the "Token expired"
    [UnauthorizedError]; for a token that passes it the handler stays
    pending and the request gets no response, whatever the store and the
    users hold.  The route never answers with an access token and never
    with "User not found". *)
Theorem refresh_route_outcomes (refreshToken : string) (now : Z) (w : world) :
  (truthy refreshToken = false ->
   refresh_token_route process_env (Some refreshToken) now w
   = (Settled (Throw refresh_required), w)) /\
  (truthy refreshToken = true ->
   (forall decoded,
       ~ signed_and_fresh refreshToken (refresh_secret process_env) now decoded) ->
   refresh_token_route process_env (Some refreshToken) now w
   = (Settled (Throw token_expired), w)) /\
  (forall decoded,
      signed_and_fresh refreshToken (refresh_secret process_env) now decoded ->
      exists w',
        refresh_token_route process_env (Some refreshToken) now w = (Pending, w') /\
        users w' = users w /\
        Redis.data (redis w') = Redis.data (redis w) /\
        forall NODE_ENV stack_,
          respond NODE_ENV stack_
            (refresh_token_route process_env (Some refreshToken) now w).1
          = NoResponse) /\
  (forall result w',
      refresh_token_route process_env (Some refreshToken) now w = (result, w') ->
      result = Settled (Throw refresh_required) \/
      result = Settled (Throw token_expired) \/
      result = Pending).
Proof.
  assert (Hfresh : forall decoded,
    signed_and_fresh refreshToken (refresh_secret process_env) now decoded ->
    refresh_token_route process_env (Some refreshToken) now w
    = (Pending,
       {| users := users w;
          redis := after_command
                     ["GET"; tokenKey (interpolate (body decoded !! "id"))]
                     (Redis.data (redis w)) (redis w) |})).
  { intros decoded Hd. pose proof Hd as Hv. apply verify_Return in Hv.
    apply verify_nonempty in Hv. destruct refreshToken as [|c rest]; [discriminate|].
    unfold refresh_token_route.
    rewrite (verifyRefreshToken_fresh _ _ _ _ _ Hd). reflexivity. }
  assert (Hstale :
    truthy refreshToken = true ->
    (forall decoded,
        ~ signed_and_fresh refreshToken (refresh_secret process_env) now decoded) ->
    refresh_token_route process_env (Some refreshToken) now w
    = (Settled (Throw token_expired), w)).
  { intros Hne Hbad. destruct refreshToken as [|c rest]; [discriminate|].
    unfold refresh_token_route. rewrite (verifyRefreshToken_stale _ _ _ _ Hbad).
    destruct w; reflexivity. }
  split; [|split; [exact Hstale|split]].
  - intros Hempty. destruct refreshToken; [reflexivity|discriminate].
  - intros decoded Hd. rewrite (Hfresh _ Hd). eexists.
    split; [reflexivity|]. cbn [users redis fst]. split; [reflexivity|].
    split; [|reflexivity].
    unfold after_command. cbn. destruct (Redis.failure (redis w)); reflexivity.
  - intros result w'. destruct (truthy refreshToken) eqn:Hne.
    + destruct (verifyRefreshToken_cases process_env refreshToken now (redis w))
        as [[_ Hbad]|(d & Hd & _)].
      * rewrite (Hstale eq_refl Hbad). intros [= <- _]. auto.
      * rewrite (Hfresh _ Hd). intros [= <- _]. auto.
    + destruct refreshToken; [|discriminate]. intros [= <- _]. auto.
Qed.

(** X13.  [POST /logout] never answers with success.  Behind the
    guard, with a non-empty [refreshToken] field, the client of the
    store is given the [DEL] of the entry of the user named by the
    access token, and the handler stays pending; the users are left
    alone, and the refresh token in the body is never looked into: any
    other non-empty value gives the same. *)
Theorem logout_never_answers (req : request) (refreshToken : string) (now : Z)
    (w : world) :
  (forall body w',
      logout process_env req (Some refreshToken) now w
      <> (Settled (Return body), w')) /\
  (forall token decoded,
      presented (authorization req) = Some token ->
      verifyAccessToken process_env token now = Return decoded ->
      truthy refreshToken = true ->
      exists w',
        logout process_env req (Some refreshToken) now w = (Pending, w') /\
        users w' = users w /\
        Redis.commands (redis w')
        = (Redis.commands (redis w)
           ++ [["DEL"; "refresh_token:" +:+ interpolate (body decoded !! "id")]])%list /\
        (Redis.failure (redis w) = None ->
         Redis.data (redis w')
         = delete ("refresh_token:" +:+ interpolate (body decoded !! "id"))
             (Redis.data (redis w))) /\
        forall other,
          truthy other = true ->
          logout process_env req (Some other) now w = (Pending, w')).
Proof.
  split.
  - intros body w'. unfold logout, guarded.
    destruct (authenticateToken process_env req now) as [req'|e|e];
      [|discriminate..].
    destruct refreshToken; [discriminate|].
    destruct (req_user req'); [|discriminate].
    rewrite invalidateRefreshToken_pending. discriminate.
  - intros token decoded Hp Hv Hne.
    assert (Hrun : forall rt, truthy rt = true ->
      logout process_env req (Some rt) now w
      = (Pending,
         {| users := users w;
            redis := after_command
                       ["DEL"; tokenKey (interpolate (body decoded !! "id"))]
                       (delete (tokenKey (interpolate (body decoded !! "id")))
                          (Redis.data (redis w))) (redis w) |})).
    { intros rt Hrt. destruct rt; [discriminate|].
      unfold logout, guarded. rewrite authenticateToken_presented, Hp, Hv.
      cbn [req_user]. rewrite invalidateRefreshToken_pending. reflexivity. }
    rewrite (Hrun _ Hne). eexists. split; [reflexivity|]. cbn [users redis].
    split; [reflexivity|]. split; [reflexivity|]. split; [|exact Hrun].
    intros Hup. unfold after_command. cbn. rewrite Hup. reflexivity.
Qed.

(** X14.  When [POST /change-password] fails with an error of the
    application's classes (400, 401, 404), neither store has changed. *)
Theorem change_password_client_errors_change_nothing (req : request)
    (currentPassword newPassword confirmPassword : option string)
    (salt : string) (now : Z) (w w' : world) (a : AppError) :
  change_password process_env bcrypt_compare bcrypt_hash req
    currentPassword newPassword confirmPassword salt now w
  = (Settled (Throw (App a)), w') ->
  w' = w.
Proof.
  unfold change_password, guarded.
  destruct (authenticateToken_ends req now)
    as [(token & decoded & Hp & Hv & ->)|[-> | ->]];
    [|intros [= _ <-]; reflexivity ..].
  destruct currentPassword as [cur|], newPassword as [new_|], confirmPassword as [conf|];
    try (intros [= _ <-]; reflexivity).
  destruct (negb (truthy cur) || negb (truthy new_) || negb (truthy conf));
    [intros [= _ <-]; reflexivity|].
  destruct (negb (String.eqb new_ conf)); [intros [= _ <-]; reflexivity|].
  destruct (js_length new_ <? 6); [intros [= _ <-]; reflexivity|].
  cbn [req_user].
  destruct (findById _ (users w)) as [u|]; [|intros [= _ <-]; reflexivity].
  destruct (negb (comparePassword bcrypt_compare u cur));
    [intros [= _ <-]; reflexivity|].
  rewrite invalidateRefreshToken_pending. discriminate.
Qed.


End RouteFacts.

(** ** The sync route *)

Section SyncFacts.
Import Sync.

#[local] Set Warnings "-clear-no-such-hyp".

(** X18.  [POST /api/sync] goes ahead exactly when [NODE_ENV] is not
    [production], or the [x-api-key] header is non-empty and equal to
    [API_KEY]; in production a missing or empty key is refused with 401
    and a wrong one with 403. *)
Theorem sync_gate_decides (NODE_ENV API_KEY x_api_key : option string) :
  (sync_gate NODE_ENV API_KEY x_api_key = Proceed <->
   ~ production NODE_ENV \/ (key_present x_api_key /\ x_api_key = API_KEY)) /\
  (sync_gate NODE_ENV API_KEY x_api_key = Refuse 401 "API key required" <->
   production NODE_ENV /\ ~ key_present x_api_key) /\
  (sync_gate NODE_ENV API_KEY x_api_key = Refuse 403 "Invalid API key" <->
   production NODE_ENV /\ key_present x_api_key /\ x_api_key <> API_KEY).
Proof.
  unfold sync_gate, production, key_present.
  destruct NODE_ENV as [v|]; [destruct (String.eqb_spec v "production") as [->|Hv]|];
    cbn [andb];
    [ destruct x_api_key as [[|c k]|]; cbn [truthy negb];
      [ | case_bool_decide as Hk; cbn [negb] | ] | | ];
    (split; [|split]); (split; [try discriminate|]); cbn [truthy];
    naive_solver.
Qed.

(** X19.  Past the gate, a sync reports success only when both
    services did; when either service throws, the client gets status 500
    with fixed texts that carry nothing of what was thrown. *)
Theorem sync_failure_is_opaque (NODE_ENV API_KEY x_api_key : option string)
    (stack_ : string) (universityResult jobResult : outcome service_result)
    (now : Z) :
  sync_gate NODE_ENV API_KEY x_api_key = Proceed ->
  match universityResult, jobResult with
  | Return u, Return j =>
      sync_route NODE_ENV API_KEY x_api_key stack_ universityResult jobResult now
      = Done {| report_success := success u && success j;
                university := u; job := j; timestamp := now |}
  | _, _ =>
      exists body,
        sync_route NODE_ENV API_KEY x_api_key stack_ universityResult jobResult now
        = Failed 500 body /\
        ErrorHandler.error_en body = "Error synchronizing data" /\
        ErrorHandler.error body = "خطا در همگام‌سازی داده‌ها" /\
        (NODE_ENV <> Some "development" ->
         body = {| ErrorHandler.status := "error";
                   ErrorHandler.error := "خطا در همگام‌سازی داده‌ها";
                   ErrorHandler.error_en := "Error synchronizing data";
                   ErrorHandler.message := "لطفا با پشتیبانی تماس بگیرید";
                   ErrorHandler.message_en := "Please contact support";
                   ErrorHandler.stack := None;
                   ErrorHandler.validationErrors := None |})
  end.
Proof.
  intros Hgate. unfold sync_route. rewrite Hgate.
  assert (Hdev : forall v, String.eqb v "development" = true -> Some v = Some "development").
  { intros v Hv. apply String.eqb_eq in Hv. congruence. }
  destruct universityResult as [u|e], jobResult as [j|e']; [reflexivity| | |];
    cbn; (destruct NODE_ENV as [v|]; [destruct (String.eqb v "development") eqn:Hv|]);
    cbn; eexists; (split; [reflexivity|]); repeat split;
    try (intros Hne; specialize (Hdev _ Hv); contradiction).
Qed.

End SyncFacts.

(** ** Paging *)

Section PagingFacts.
Import Paging.

(** X20.  The page size of the list routes never exceeds 100; it is 20
    when the query gives none or 0, the smaller of the query value and
    100 when that value is positive, and the query value itself when
    that is negative. *)
Theorem limit_bounds (limit_query : option Z) :
  limit limit_query <= 100 /\
  (limit_query = None \/ limit_query = Some 0 -> limit limit_query = 20) /\
  (forall n, limit_query = Some n -> 1 <= n -> limit limit_query = Z.min n 100) /\
  (forall n, limit_query = Some n -> n < 0 -> limit limit_query = n) /\
  (1 <= limit limit_query \/ exists n, limit_query = Some n /\ n < 0).
Proof.
  unfold limit, parsed_or.
  destruct limit_query as [n|]; [destruct (Z.eqb_spec n 0) as [->|Hn]|].
  - split; [lia|]. split; [reflexivity|].
    split; [intros m [= <-]; lia|]. split; [intros m [= <-]; lia|]. left. lia.
  - split; [lia|]. split; [intros [[=]|[= ->]]; contradiction|].
    split; [intros m [= <-] _; reflexivity|].
    split; [intros m [= <-] Hm; lia|].
    destruct (Z.lt_ge_cases n 0); [right; eauto|left; lia].
  - split; [lia|]. split; [reflexivity|].
    split; [intros m [=]|]. split; [intros m [=]|]. left. lia.
Qed.

(** X21.  With a positive page size the pages 1 to [totalPages] cover
    the [total] documents: there are no pages for no documents, the last
    page is not empty, and every document index lies in exactly one
    page's window. *)
Theorem pages_cover (total : Z) (limit_query : option Z) :
  0 <= total ->
  1 <= limit limit_query ->
  let pages := totalPages total limit_query in
  0 <= pages /\
  (total = 0 -> pages = 0) /\
  (0 < total -> (pages - 1) * limit limit_query < total <= pages * limit limit_query) /\
  forall i, 0 <= i < total ->
    exists p, 1 <= p <= pages /\
      skip (Some p) limit_query <= i < skip (Some p) limit_query + limit limit_query /\
      forall q, 1 <= q ->
        skip (Some q) limit_query <= i < skip (Some q) limit_query + limit limit_query ->
        q = p.
Proof.
  intros Htotal Hlimit pages. subst pages. unfold totalPages, skip.
  set (l := limit limit_query) in *.
  assert (Hpage : forall p, 1 <= p -> page (Some p) = p).
  { intros p Hp. unfold page, parsed_or. destruct (Z.eqb_spec p 0); [lia|reflexivity]. }
  destruct (Z.eqb_spec total 0) as [->|Hne].
  - change (- 0) with 0. rewrite Z.div_0_l by lia.
    split; [lia|]. split; [reflexivity|]. split; [lia|]. intros i Hi. lia.
  - split; [|split; [|split]].
    + Z.div_mod_to_equations. nia.
    + intros Hzero. contradiction.
    + intros _. Z.div_mod_to_equations. nia.
    + intros i Hi. exists (i / l + 1). split; [|split].
      * Z.div_mod_to_equations. nia.
      * rewrite Hpage by (Z.div_mod_to_equations; nia).
        Z.div_mod_to_equations. nia.
      * intros q Hq. rewrite Hpage by assumption. intros Hin.
        Z.div_mod_to_equations. nia.
Qed.

End PagingFacts.

(** ** Instances of the further properties *)

Lemma app_error_response_witness :
  exists body,
    ErrorHandler.errorHandlerMiddleware None
      (ErrorHandler.of_exn "at verifyRefreshToken" token_expired)
    = Return (401, body) /\
    ErrorHandler.error_en body = "Token expired. Please login again" /\
    ErrorHandler.stack body = None.
Proof.
  destruct (app_error_response None "at verifyRefreshToken" UnauthorizedError
              "توکن منقضی شده است. لطفا مجددا وارد شوید"
              "Token expired. Please login again" eq_refl)
    as (body & Hrun & _ & _ & Hen & _ & Hprod).
  exists body. split; [exact Hrun|]. split; [exact Hen|].
  exact (proj1 (Hprod eq_refl)).
Defined.

Lemma stack_only_in_development_witness :
  match ErrorHandler.errorHandlerMiddleware (Some "production")
          (ErrorHandler.of_exn "at verifyRefreshToken" token_expired) with
  | Return (_, body) => ErrorHandler.stack body = None
  | Throw _ => False
  end.
Proof.
  generalize (stack_only_in_development (Some "production")
                (ErrorHandler.of_exn "at verifyRefreshToken" token_expired)).
  destruct (ErrorHandler.errorHandlerMiddleware (Some "production")
              (ErrorHandler.of_exn "at verifyRefreshToken" token_expired))
    as [[statusCode body]|e] eqn:Hrun.
  - intros Hstack. exact (Hstack statusCode body eq_refl).
  - vm_compute in Hrun. discriminate.
Defined.

Lemma dependency_error_response_witness :
  ErrorHandler.errorHandlerMiddleware (Some "production")
    (ErrorHandler.of_exn "at connect" (Lib "Error" "connect ECONNREFUSED 127.0.0.1:6379"))
  = Return (500,
            {| ErrorHandler.status := "error";
               ErrorHandler.error := "connect ECONNREFUSED 127.0.0.1:6379";
               ErrorHandler.error_en := "An error occurred on the server";
               ErrorHandler.message := "لطفا با پشتیبانی تماس بگیرید";
               ErrorHandler.message_en := "Please contact support";
               ErrorHandler.stack := None;
               ErrorHandler.validationErrors := None |}).
Proof.
  apply (dependency_error_response (Some "production")
           (ErrorHandler.of_exn "at connect"
              (Lib "Error" "connect ECONNREFUSED 127.0.0.1:6379")));
    [reflexivity | reflexivity | discriminate | reflexivity | reflexivity].
Defined.

Lemma jwt_error_response_witness :
  match ErrorHandler.errorHandlerMiddleware None
          (ErrorHandler.of_exn "at verify" (Lib "TokenExpiredError" "jwt expired")) with
  | Return (statusCode, body) =>
      statusCode = 401 /\ ErrorHandler.error_en body = "Token expired"
  | Throw _ => False
  end.
Proof.
  generalize (jwt_error_response None
                (ErrorHandler.of_exn "at verify" (Lib "TokenExpiredError" "jwt expired"))).
  destruct (ErrorHandler.errorHandlerMiddleware None
              (ErrorHandler.of_exn "at verify" (Lib "TokenExpiredError" "jwt expired")))
    as [[statusCode body]|e] eqn:Hrun.
  - intros Hjwt.
    destruct (Hjwt statusCode body (or_intror eq_refl) eq_refl) as (Hs & Hen & _).
    split; [exact Hs | exact Hen].
  - vm_compute in Hrun. discriminate.
Defined.

Lemma errorHandlerMiddleware_throws_witness :
  ErrorHandler.errorHandlerMiddleware None
    (ErrorHandler.of_exn "at save" (Lib "ValidationError" "User validation failed"))
  = Throw ErrorHandler.type_error /\
  exists response,
    ErrorHandler.errorHandlerMiddleware None
      (ErrorHandler.of_exn "at verifyRefreshToken" token_expired)
    = Return response.
Proof.
  split.
  - apply (proj1 (errorHandlerMiddleware_throws None
             (ErrorHandler.of_exn "at save" (Lib "ValidationError" "User validation failed")))).
    left. split; reflexivity.
  - apply (proj2 (proj2 (errorHandlerMiddleware_throws None
             (ErrorHandler.of_exn "at verifyRefreshToken" token_expired))));
      discriminate.
Defined.

Lemma validate_response_witness :
  exists err body,
    ErrorHandler.validate "at validate" [("email", "Email is not valid")] = Some err /\
    ErrorHandler.errorHandlerMiddleware None err = Return (422, body) /\
    ErrorHandler.error_en body = "Invalid input data" /\
    ErrorHandler.validationErrors body = Some [("email", "Email is not valid")].
Proof.
  apply (proj2 (validate_response None "at validate" [("email", "Email is not valid")])).
  discriminate.
Defined.

Lemma verifyRefreshToken_ignores_store_witness :
  (verifyRefreshToken env0 (refresh_token env0 alice 1000 604800000) 2000
     redis_alice).1
  = (verifyRefreshToken env0 (refresh_token env0 alice 1000 604800000) 2000
       redis0).1.
Proof.
  apply (proj1 (verifyRefreshToken_ignores_store env0
                  (refresh_token env0 alice 1000 604800000) 2000 redis_alice redis0)).
Defined.

Lemma other_users_unaffected_witness :
  Redis.data (generateRefreshToken env0 carol 1500 redis_alice).2
    !! "refresh_token:65f1c0ffee"
  = Redis.data redis_alice !! "refresh_token:65f1c0ffee".
Proof.
  apply (proj1 (other_users_unaffected env0 carol alice 1500 redis_alice
                  ltac:(discriminate))).
Defined.

Lemma refresh_token_as_access_token_witness :
  authenticateToken env_shared
    {| authorization := Some ("Bearer " +:+ refresh_token env_shared carol 1000 604800000);
       req_user := None |} 2000
  = Next {| authorization := Some ("Bearer " +:+ refresh_token env_shared carol 1000 604800000);
            req_user := Some (refresh_claims carol 1000 604800000) |}.
Proof.
  apply (refresh_token_as_access_token env_shared carol 1000 2000 604800000);
    reflexivity.
Defined.

Lemma login_rejects_uniformly_witness :
  AuthRoutes.login env0 compare0 hash0 trim0 lower0 "carol" "wrong-password" 1000 world0
  = (Settled (Throw AuthRoutes.invalid_credentials), world0) /\
  AuthRoutes.login env0 compare0 hash0 trim0 lower0 "nobody" "secret1" 1000 world0
  = (Settled (Throw AuthRoutes.invalid_credentials), world0).
Proof.
  split.
  - apply (proj1 (login_rejects_uniformly env0 compare0 hash0 trim0 lower0
                    "carol" "wrong-password" 1000 world0)).
    intros k u Hk _. unfold world0 in Hk; cbn [AuthRoutes.users] in Hk.
    apply lookup_singleton_Some in Hk as [_ <-]. reflexivity.
  - apply (proj1 (login_rejects_uniformly env0 compare0 hash0 trim0 lower0
                    "nobody" "secret1" 1000 world0)).
    intros k u Hk Hname. unfold world0 in Hk; cbn [AuthRoutes.users] in Hk.
    apply lookup_singleton_Some in Hk as [_ <-].
    destruct Hname as [Hname|Hname]; discriminate.
Defined.

(** A login of [carol] by her email in capitals, with her password. *)
Lemma login_never_answers_witness :
  exists w',
    AuthRoutes.login env0 compare0 hash0 trim0 lower0 "C@X.COM" "secret1" 1000 world0
    = (Pending, w') /\
    AuthRoutes.users w'
    = <[_id carol := AuthRoutes.set_lastLogin carol 1000]> (AuthRoutes.users world0) /\
    Redis.data (AuthRoutes.redis w') !! "refresh_token:65f1c0ffef"
    = Some {| Redis.value := refresh_token env0 carol 1000 604800000;
              Redis.expireAt := None |}.
Proof.
  destruct (proj2 (login_never_answers (H:=ref_jwt) env0 compare0 hash0 trim0 lower0
                     "C@X.COM" "secret1" 1000 world0)
              carol 900000 604800000)
    as (w' & Hrun & Husers & _ & Hdata & _).
  - exists (_id carol). apply lookup_singleton_eq.
  - right. reflexivity.
  - intros k u' Hk _. unfold world0 in Hk; cbn [AuthRoutes.users] in Hk.
    apply lookup_singleton_Some in Hk as [_ <-]. reflexivity.
  - reflexivity.
  - reflexivity.
  - reflexivity.
  - exists w'. split; [exact Hrun|]. split; [exact Husers|]. exact (Hdata eq_refl).
Defined.

Lemma refresh_route_outcomes_witness :
  AuthRoutes.refresh_token_route env0 (Some "") 1000 world0
  = (Settled (Throw refresh_required), world0) /\
  AuthRoutes.refresh_token_route env0 (Some "J.x.y") 1000 world0
  = (Settled (Throw token_expired), world0) /\
  exists w',
    AuthRoutes.refresh_token_route env0
      (Some (refresh_token env0 carol 1000 604800000)) 2000 world0
    = (Pending, w').
Proof.
  split; [|split].
  - apply (proj1 (refresh_route_outcomes env0 "" 1000 world0)). reflexivity.
  - apply (proj1 (proj2 (refresh_route_outcomes env0 "J.x.y" 1000 world0)));
      [reflexivity|].
    intros decoded [Hsig _]. vm_compute in Hsig. discriminate.
  - destruct (proj1 (proj2 (proj2 (refresh_route_outcomes (H:=ref_jwt) env0
                (refresh_token env0 carol 1000 604800000) 2000 world0)))
                (refresh_claims carol 1000 604800000))
      as (w' & Hrun & _).
    + split; [vm_compute; reflexivity|]. intros e [= <-]. reflexivity.
    + exists w'. exact Hrun.
Defined.

Lemma logout_never_answers_witness :
  exists w',
    AuthRoutes.logout env0 carol_request (Some "anything") 2000 world0 = (Pending, w') /\
    AuthRoutes.users w' = AuthRoutes.users world0 /\
    Redis.commands (AuthRoutes.redis w') = [["DEL"; "refresh_token:65f1c0ffef"]].
Proof.
  assert (Hp : presented (authorization carol_request)
               = Some (jws_sign carol_claims (access_secret env0)))
    by (vm_compute; reflexivity).
  assert (Hv : verifyAccessToken env0 (jws_sign carol_claims (access_secret env0)) 2000
               = Return carol_claims) by (vm_compute; reflexivity).
  destruct (proj2 (logout_never_answers env0 carol_request "anything" 2000 world0)
              _ _ Hp Hv eq_refl)
    as (w' & Hrun & Husers & Hcommands & _).
  exists w'. split; [exact Hrun|]. split; [exact Husers|]. exact Hcommands.
Defined.

Lemma change_password_client_errors_change_nothing_witness :
  AuthRoutes.change_password env0 compare0 hash0 carol_request
    (Some "secret1") (Some "abc") (Some "abc") "salt2" 2000 world0
  = (Settled (Throw (App (new BadRequestError
       "رمز عبور جدید باید حداقل 6 کاراکتر باشد"
       "New password must be at least 6 characters"))), world0).
Proof.
  generalize (change_password_client_errors_change_nothing (H:=ref_jwt) env0 compare0 hash0
                carol_request (Some "secret1") (Some "abc") (Some "abc")
                "salt2" 2000 world0).
  destruct (AuthRoutes.change_password env0 compare0 hash0 carol_request
              (Some "secret1") (Some "abc") (Some "abc") "salt2" 2000 world0)
    as [[[response|[a|name msg]]|] w'] eqn:Hrun.
  - vm_compute in Hrun. discriminate.
  - intros Hsame. rewrite (Hsame w' a eq_refl).
    vm_compute in Hrun. injection Hrun as <- _. reflexivity.
  - vm_compute in Hrun. discriminate.
  - vm_compute in Hrun. discriminate.
Defined.


Lemma sync_gate_decides_witness :
  Sync.sync_gate (Some "production") (Some "k3y") (Some "k3y") = Sync.Proceed /\
  Sync.sync_gate (Some "production") (Some "k3y") (Some "guess")
  = Sync.Refuse 403 "Invalid API key".
Proof.
  split.
  - apply (proj1 (sync_gate_decides (Some "production") (Some "k3y") (Some "k3y"))).
    right. split; [exists "k3y"; split; reflexivity | reflexivity].
  - apply (proj2 (proj2 (sync_gate_decides (Some "production") (Some "k3y")
                           (Some "guess")))).
    split; [reflexivity|]. split; [exists "guess"; split; reflexivity | discriminate].
Defined.

Lemma sync_failure_is_opaque_witness :
  exists body,
    Sync.sync_route (Some "production") (Some "k3y") (Some "k3y") "at syncAllData"
      (Throw (Lib "Error" "getaddrinfo ENOTFOUND api.example.org"))
      (Return {| Sync.success := true; Sync.detail := "12 jobs" |}) 5000
    = Sync.Failed 500 body /\
    ErrorHandler.error_en body = "Error synchronizing data" /\
    ErrorHandler.stack body = None.
Proof.
  destruct (sync_failure_is_opaque (Some "production") (Some "k3y") (Some "k3y")
              "at syncAllData"
              (Throw (Lib "Error" "getaddrinfo ENOTFOUND api.example.org"))
              (Return {| Sync.success := true; Sync.detail := "12 jobs" |}) 5000
              eq_refl)
    as (body & Hrun & Hen & _ & Hprod).
  exists body. split; [exact Hrun|]. split; [exact Hen|].
  rewrite Hprod by discriminate. reflexivity.
Defined.

Lemma limit_bounds_witness :
  Paging.limit (Some 500) = 100 /\ Paging.limit (Some (-5)) = -5.
Proof.
  split.
  - apply (proj1 (proj2 (proj2 (limit_bounds (Some 500)))) 500); [reflexivity | lia].
  - apply (proj1 (proj2 (proj2 (proj2 (limit_bounds (Some (-5)))))) (-5));
      [reflexivity | lia].
Defined.

Lemma pages_cover_witness :
  let pages := Paging.totalPages 45 (Some 20) in
  0 <= pages /\
  (45 = 0 -> pages = 0) /\
  (0 < 45 ->
   (pages - 1) * Paging.limit (Some 20) < 45 <= pages * Paging.limit (Some 20)) /\
  forall i, 0 <= i < 45 ->
    exists p, 1 <= p <= pages /\
      Paging.skip (Some p) (Some 20) <= i
        < Paging.skip (Some p) (Some 20) + Paging.limit (Some 20) /\
      forall q, 1 <= q ->
        Paging.skip (Some q) (Some 20) <= i
          < Paging.skip (Some q) (Some 20) + Paging.limit (Some 20) ->
        q = p.
Proof.
  apply (pages_cover 45 (Some 20)); vm_compute; discriminate.
Defined.
